(* ===== verification/_CoqProject ===== *)
-Q . S2P
Prelude.v
JsString.v
Icons.v
JsObject.v
Severity.v
Theme.v
Mui.v
Content.v
Floating.v
Toggle.v
Styles.v
Radio.v
App.v
Trace.v
