(* ===== verification/Prelude.v ===== *)
(** * A verification development for my-error-component ([src/src/App.tsx])

    ** The program

    The repository is one React/TypeScript module, [src/src/App.tsx], built
    on the MUI component library.  It declares:
    - the icon table [Icons] (lines 5-12), a JS object from six icon keys
      ([info], [newReleases], [report], [error], [warning], [done]) to MUI
      icon components, whose key type [keyof typeof Icons] is the icon kind;
    - the theme [theme] (lines 14-41): easing curves and durations;
    - [AlertFloatingBottom] (lines 43-91) and [PaperFloatingBottom]
      (lines 94-162), two floating notification widgets.  Each resolves a
      severity from its icon by a nested ternary, draws a backdrop whose
      opacity follows [open], and shows its body in a [Popper] with a
      [Slide] transition.  The Alert version dismisses through the Alert's
      close button; the Paper version renders an OK button and either a
      close icon (when [onClose] is given) or a Cancel button;
    - [ErrorToggleButton] (lines 165-195), an exclusive two-button toggle
      group ("Open"/"Close") that forwards the group's new value to
      [onChange];
    - [RadioButtons] with [BpIcon]/[BpCheckedIcon]/[BpRadio] (lines
      203-272), a styled, uncontrolled radio group;
    - [App] (lines 274-302), the demo screen.  It owns three state hooks
      ([open], [openAlert], [selectedIcon]) and wires the radio group to
      [selectedIcon], one toggle to each widget's open flag, and both widgets'
      [onClose] to [setOpen(false)].

    ** The library, and how it corresponds to the code

    - [Prelude] (this file): the [ui_scope] with the JS optional call
      [f?.()] (a call is recorded as the callee in a list, so "called
      exactly once" is a statement on a length), the [ui] hint and rewrite
      databases, the tactics [case_streq] and [enum_cases], and the string
      and list lemmas shared by all files.
    - [JsObject]: JS property assignment [o[k] = v] and [Object.assign] /
      object spread on objects as insertion-ordered association lists, with
      their lookup semantics ([object_assign_get_gen]).
    - [JsString]: the JS string operations the code calls, not code of the
      repository: [toLowerCase] on 8-bit code units (A-Z and the Latin-1
      capitals), [===], [?.toLowerCase()] on a possibly [undefined] value,
      [`${n}ms`]; and [case_variants], the strings with a given lower-case
      form, which [toLowerCase] is proved to cover.
    - [Icons] (lines 1, 5-12, 60, 286): the object literal as an association
      list in declaration order, [o[k]] ([object_get]), [Object.keys],
      [keyof typeof Icons] as [IconKind] with its string encoding.
    - [Severity] (lines 60-64, 112-116): the nested ternary [severity_of] on
      the icon string, [resolve] (severity and [Icons[icon]]), the design's
      table [spec_resolve], and the refinement theorem.
    - [Theme] (lines 14-41, 70-79, 129-136): the theme's transitions, the
      palette as an interface ([Class Palette], MUI's default values as the
      instance [mui_palette]) and the backdrop [sx] both widgets compute.
    - [Mui]: the MUI behaviour the code relies on, as the code observes
      it: the exclusive [ToggleButtonGroup] ([Class ExclusiveToggleGroup]:
      the value passed is [null] or the clicked one, the clicked one when
      it is not selected; [mui_toggle_group] is MUI's [value === buttonValue
      ? null : buttonValue]), the uncontrolled [RadioGroup] (a checked radio
      fires no change), and the [Popper] with a transition (it renders its
      child while [open] or while the exit transition runs).
    - [Floating] (lines 43-162): each widget as a function from its props
      (callbacks of a parent-chosen type) and its popper state to its view:
      id, backdrop, popper props and, while the popper renders, the body
      with its clickable controls; [None] when [<Icon />] throws.  The
      click handlers return the callbacks they invoke.
    - [Content] (lines 86, 155, 197-201): the element tree React renders
      for a widget's content, [MyCustomError], the [<Box mx={1}>] slot
      that shows [children]; [App] passes [<MyCustomError />] to both
      widgets, whose bodies carry it ([ab_content], [pb_content]).
    - [Toggle] (lines 165-195): [ErrorToggleButton] over any
      [ExclusiveToggleGroup].
    - [Styles] (lines 203-256): [BpIcon]'s style object as a function of
      the palette mode, [BpCheckedIcon] as emotion's composition
      [styled(BpIcon)(...)] (later declarations win, selector by selector),
      and [BpRadio]'s default props followed by the caller's [{...props}]
      ([JsObject]'s [object_assign]).
    - [Radio] (lines 258-272): [RadioButtons] over MUI's radio group, and
      the icon element each radio draws.
    - [App] (lines 274-302): the hooks, the closures App passes (the
      constructors of [app_cb], interpreted by [run_cb]), the screen state
      (hooks plus the radio group's and the two poppers' internal state),
      the user events, the two-phase step ([dispatch] runs the clicked
      control's handler, [commit] applies the state updates in order and
      lets the poppers follow [open]), and [reachable] as [rtc] of the step
      from [screen_init].  The definitions that depend on the library are
      in [Section Screen] over [Palette] and [ExclusiveToggleGroup].
    - [Trace]: sessions, i.e. lists of user events replayed by
      [run_events] (the callbacks each event invokes are collected), the
      design's state machine ([abs_state]: an icon kind and two visibility
      flags; [design_step] on the design's actions, [design_action_of] the
      action of each user event) and the abstraction [abs_of] of a
      screen.

    ** What the theorems show

    - Refinement and functional behaviour of the resolver: on every key the
      code's resolver gives the design's severity and glyph
      ([resolve_refines_spec]); off the keys it gives [info] and no icon
      ([resolve_non_key]); a widget throws exactly when it renders its body
      with a non-key icon ([widgets_throw_iff]).
    - Invariants of the screen, by induction on [rtc]: the radio group
      shows the selected icon, the selected icon is a key, an open widget's
      popper is entered ([reachable_invariant]); hence no reachable screen
      throws ([reachable_App_renders]) and both widgets show the severity
      of the selected icon ([reachable_severity_follows_icon]).
    - The handlers, event by event: toggles, the Alert's and the Paper's
      controls, the radio group, and the exit transitions; which callbacks
      each event invokes and how the hooks change.  The toggle theorems
      that need only the interface's laws are proved for any exclusive
      group; [alert_toggle_open_flips] is MUI's.
    - Liveness of the exit transitions: a closed Alert (Paper) disappears
      after at most one exit event ([alert_exit_hides_alert],
      [paper_exit_hides_paper]).
    - Bounds and types: every event invokes at most one closure
      ([step_invokes_at_most_one_callback]); the cast of the radio value to
      an icon key is sound ([radio_cast_sound]).
    - Styles: in both palette modes the checked icon keeps [BpIcon]'s
      shape but differs from it in background, background image and hover
      colour, and only it draws the [::before] dot
      ([checked_icon_distinct]); the selected icon's radio, and only it,
      draws [BpCheckedIcon] ([reachable_radio_checked_is_selected]).
    - Sessions: only the Alert's toggle changes [openAlert]
      ([alert_flag_only_by_toggle]); the selected icon after a session is
      the last radio clicked ([run_selectedIcon]); a close control is
      enabled exactly while its popper renders, i.e. also during the exit
      transition ([close_controls_enabled_iff]); event by event, the
      screen refines the design's machine, except that the Alert's
      dismissal is the design's dismissal of the Paper
      ([screen_refines_design]); a radio click and a
      click on the Paper's toggle commute ([radio_paper_toggle_commute]),
      and so do clicks on the two toggles ([toggles_commute]).  The
      Alert's close button is not independent of the Paper's toggle: it
      writes the Paper's flag too ([alert_close_keeps_alert_open]).
    - What modelling found: the Alert's [onClose] closes the Paper and not
      the Alert; a second click on "Open" closes (MUI's exclusive group
      passes [null]); the Alert never offers OK; the Paper's OK does
      nothing in [App]; a closed widget stays clickable during its exit
      transition; both widgets use the same DOM id [widget_id].

    No definition takes fuel: every function is structural or non-recursive,
    and the screen's executions are sequences of [step]s, so reachability is
    an inductive closure and every property holds for executions of any
    length; [run_events] is structural in the session.  Witnesses evaluate
    the step on the screens [demo_error_open], [demo_paper_open],
    [demo_alert_exiting] and [demo_paper_exiting], each shown reachable,
    and replay concrete sessions from [screen_init].

    ** Not modelled

    - How a style object is drawn (pixels, the CSS cascade beyond the
      declaration-wise override of [styled]); MUI's default theme, whose
      mode is the one the styled icons receive (the App has no
      [ThemeProvider]).
    - Layout, CSS, animation timing, and the Popper's anchoring on
      [anchorEl.current] (the ref is set after the first render).
    - [toLowerCase] beyond code unit 255.
    - The module imports (lines 2-4) and the default export (line 304):
      the sources hold no entry point that mounts [App]; bootstrap,
      layout and CSS are framework configuration.
    - MUI's rendering internals: only the behaviour the code relies on is
      stated, as interfaces ([ExclusiveToggleGroup], [Palette]) and as the
      radio group's and the popper's state machines in [Mui]. *)

From stdpp Require Export base list strings relations.
From Stdlib Require Export Ascii.

Declare Scope ui_scope.
Delimit Scope ui_scope with ui.
Open Scope ui_scope.

Create HintDb ui.
Create Rewrite HintDb ui.
#[export] Hint Constants Transparent : ui.

(** ** JS optional call

    [f?.()] calls [f] when it is present; we record a call as the callee
    in a list, so that "called exactly once" is a statement on its length. *)

Definition optional_call {A} (f : option A) : list A :=
  match f with
  | Some g => [g]
  | None => []
  end.

Notation "f '?.()'" := (optional_call f) (at level 1, format "f ?.()") : ui_scope.

Lemma optional_call_Some {A} (g : A) : (Some g) ?.() = [g].
Proof. reflexivity. Qed.

Lemma optional_call_None {A} : (None : option A) ?.() = [].
Proof. reflexivity. Qed.

#[export] Hint Rewrite @optional_call_Some @optional_call_None : ui.

(** ** Strings *)

Lemma string_eqb_refl (s : string) : String.eqb s s = true.
Proof. apply String.eqb_refl. Qed.

Lemma string_eqb_true_iff (s t : string) : String.eqb s t = true <-> s = t.
Proof. apply String.eqb_eq. Qed.

Lemma string_eqb_false_iff (s t : string) : String.eqb s t = false <-> s <> t.
Proof. apply String.eqb_neq. Qed.

#[export] Hint Rewrite string_eqb_refl : ui.

(** Case analysis on a string test of the code. *)
Ltac case_streq s t :=
  let E := fresh "E" in
  destruct (String.eqb s t) eqn:E;
  [apply string_eqb_true_iff in E | apply string_eqb_false_iff in E].

(** Case analysis on every value of an enumeration in the context, each
    case closed by computation when it can be. *)
Ltac enum_cases x := destruct x; simpl; autorewrite with ui; try reflexivity.

(** ** Lists *)

Lemma elem_of_list_In_iff {A} (x : A) (l : list A) : x ∈ l <-> In x l.
Proof. apply list_elem_of_In. Qed.
