(* ===== verification/JsString.v ===== *)
(** * The JS string operations the program calls

    [String.prototype.toLowerCase], strict equality on strings, and the
    interpolation of a number in a template literal ([`${n}ms`]).  Strings
    are Rocq strings of 8-bit characters, read as UTF-16 code units below
    256: on that range [toLowerCase] maps [A-Z] and the Latin-1 capitals
    U+00C0-U+00DE (except U+00D7, the multiplication sign) to the code
    unit 32 above, and leaves every other unit alone. *)

From S2P Require Import Prelude.
From Stdlib Require Import DecimalString DecimalNat.

Module JsString.

(** ** [toLowerCase] *)

Definition is_upper_code (n : nat) : bool :=
  ((65 <=? n) && (n <=? 90)) || ((192 <=? n) && (n <=? 222) && negb (n =? 215)).

Definition to_lower_char (c : ascii) : ascii :=
  let n := nat_of_ascii c in
  if is_upper_code n then ascii_of_nat (n + 32) else c.

Fixpoint toLowerCase (s : string) : string :=
  match s with
  | EmptyString => EmptyString
  | String c s' => String (to_lower_char c) (toLowerCase s')
  end.

(** ** Strict equality on strings *)

Definition strict_eq (s t : string) : bool := String.eqb s t.

(** [a?.toLowerCase()] on a value that may be [null]/[undefined]: the
    result is [undefined] ([None]) on a missing value. *)
Definition optional_toLowerCase (v : option string) : option string :=
  match v with
  | Some s => Some (toLowerCase s)
  | None => None
  end.

(** [x === "lit"] where [x] may be [undefined]: [undefined] is strictly
    equal to no string. *)
Definition optional_strict_eq (v : option string) (lit : string) : bool :=
  match v with
  | Some s => strict_eq s lit
  | None => false
  end.

(** ** Template literals *)

(** [`${n}`] for a non-negative integer [n]: its decimal digits. *)
Definition number_to_string (n : nat) : string :=
  NilEmpty.string_of_uint (Nat.to_uint n).

(** [`${n}ms`], the CSS duration the widgets compute. *)
Definition ms_string (n : nat) : string := String.append (number_to_string n) "ms".

(** ** Lemmas *)

(** The 256 characters. *)
Definition all_chars : list ascii := map ascii_of_nat (seq 0 256).

Lemma all_chars_complete (c : ascii) : In c all_chars.
Proof.
  unfold all_chars. rewrite <- (ascii_nat_embedding c).
  apply in_map, in_seq. pose proof (nat_ascii_bounded c). lia.
Qed.

(** The characters whose lower case is [x]. *)
Definition lower_preimage (x : ascii) : list ascii :=
  List.filter (fun d => Ascii.eqb (to_lower_char d) x) all_chars.

Lemma lower_preimage_spec (c x : ascii) : to_lower_char c = x -> In c (lower_preimage x).
Proof.
  intros <-. unfold lower_preimage. rewrite filter_In.
  split; [apply all_chars_complete | apply Ascii.eqb_refl].
Qed.

(** The strings whose lower case is [t], listed: every character of [t] may
    be any of its preimages. *)
Fixpoint case_variants (t : string) : list string :=
  match t with
  | EmptyString => [EmptyString]
  | String x t' =>
      flat_map (fun c => map (String c) (case_variants t')) (lower_preimage x)
  end.

Lemma case_variants_complete (s t : string) :
  toLowerCase s = t -> In s (case_variants t).
Proof.
  revert t. induction s as [|c s IH]; intros t <-; simpl; [by left|].
  apply in_flat_map. exists c. split.
  - by apply lower_preimage_spec.
  - apply in_map. by apply IH.
Qed.

End JsString.
