(* ===== verification/Icons.v ===== *)
(** * The icon table [Icons] (App.tsx lines 5-12)

    The object literal is modelled as the association list it denotes, in
    its declaration order (the order [Object.keys] returns).  The type
    [keyof typeof Icons] is the enumeration [IconKind]; at run time an icon
    is a string, and [Icons[icon]] is a property lookup that is [undefined]
    on a string that is not a key. *)

From S2P Require Import Prelude.
From S2P Require Import JsString.

Module Icons.

(** The MUI icon components the module imports (line 1). *)
Inductive Glyph :=
  | WarningRounded | ErrorRounded | ReportRounded | NewReleasesRounded
  | InfoRounded | DoneRounded | CloseRounded.

#[export] Instance Glyph_eq_dec : EqDecision Glyph.
Proof. solve_decision. Defined.

(** A JS object with string keys, as the list of its own properties. *)
Definition object (A : Type) := list (string * A).

(** [o[k]]: the value of the first property named [k]. *)
Fixpoint object_get {A} (k : string) (o : object A) : option A :=
  match o with
  | [] => None
  | (k', v) :: o' => if String.eqb k k' then Some v else object_get k o'
  end.

(** [Object.keys(o)]. *)
Definition object_keys {A} (o : object A) : list string := map fst o.

Definition Icons : object Glyph :=
  [("info", InfoRounded);
   ("newReleases", NewReleasesRounded);
   ("report", ReportRounded);
   ("error", ErrorRounded);
   ("warning", WarningRounded);
   ("done", DoneRounded)].

(** [keyof typeof Icons]. *)
Inductive IconKind := Info | NewReleases | Report | Error | Warning | Done.

#[export] Instance IconKind_eq_dec : EqDecision IconKind.
Proof. solve_decision. Defined.

Definition all_icon_kinds : list IconKind := [Info; NewReleases; Report; Error; Warning; Done].

(** The run-time string of a key. *)
Definition icon_key (k : IconKind) : string :=
  match k with
  | Info => "info"
  | NewReleases => "newReleases"
  | Report => "report"
  | Error => "error"
  | Warning => "warning"
  | Done => "done"
  end.

(** The key a string denotes, if any. *)
Definition icon_of_key (s : string) : option IconKind :=
  find (fun k => String.eqb s (icon_key k)) all_icon_kinds.

(** Whether a run-time string is a key of [Icons]. *)
Definition is_icon_key (s : string) : bool :=
  existsb (String.eqb s) (object_keys Icons).

(** [const Icon = Icons[icon]] (lines 60 and 112). *)
Definition Icon_of (icon : string) : option Glyph := object_get icon Icons.

(** ** Lemmas *)

Lemma icon_kind_in_all (k : IconKind) : In k all_icon_kinds.
Proof. destruct k; simpl; tauto. Qed.

Lemma object_keys_Icons : object_keys Icons = map icon_key all_icon_kinds.
Proof. reflexivity. Qed.

Lemma icon_of_key_icon_key (k : IconKind) : icon_of_key (icon_key k) = Some k.
Proof. destruct k; reflexivity. Qed.

Lemma icon_key_inj (k1 k2 : IconKind) : icon_key k1 = icon_key k2 -> k1 = k2.
Proof.
  intros H. apply (f_equal icon_of_key) in H.
  rewrite !icon_of_key_icon_key in H. congruence.
Qed.

Lemma is_icon_key_spec (s : string) :
  is_icon_key s = true <-> exists k, icon_key k = s.
Proof.
  unfold is_icon_key. rewrite object_keys_Icons, existsb_exists. split.
  - intros (x & Hx & Hs). apply in_map_iff in Hx as (k & <- & _).
    apply string_eqb_true_iff in Hs. by exists k.
  - intros (k & <-). exists (icon_key k).
    split; [apply in_map, icon_kind_in_all | apply string_eqb_refl].
Qed.

Lemma is_icon_key_icon_key (k : IconKind) : is_icon_key (icon_key k) = true.
Proof. apply is_icon_key_spec. by exists k. Qed.

Lemma object_get_In {A} (k : string) (o : object A) (v : A) :
  object_get k o = Some v -> In k (object_keys o).
Proof.
  induction o as [|[k' v'] o IH]; simpl; [done|].
  case_streq k k'; [subst; auto | auto].
Qed.

Lemma object_get_keys {A} (k : string) (o : object A) :
  In k (object_keys o) -> exists v, object_get k o = Some v.
Proof.
  induction o as [|[k' v'] o IH]; simpl; [done|].
  case_streq k k'; [eauto|]. intros [-> | Hin]; [done | auto].
Qed.

(** [Icons[icon]] is defined exactly on the keys of [Icons]. *)
Lemma Icon_of_defined (s : string) : is_Some (Icon_of s) <-> is_icon_key s = true.
Proof.
  unfold Icon_of, is_icon_key. rewrite existsb_exists. split.
  - intros [g Hg]. exists s. split; [by eapply object_get_In | apply string_eqb_refl].
  - intros (x & Hx & Hs). apply string_eqb_true_iff in Hs as <-.
    destruct (object_get_keys s Icons Hx) as [g Hg]. by exists g.
Qed.

Lemma is_icon_key_elem (s : string) : s ∈ object_keys Icons <-> is_icon_key s = true.
Proof.
  rewrite elem_of_list_In_iff. unfold is_icon_key. rewrite existsb_exists. split.
  - intros Hin. exists s. split; [done | apply string_eqb_refl].
  - intros (x & Hx & ->%string_eqb_true_iff). done.
Qed.

Lemma Icon_of_None (s : string) : Icon_of s = None <-> is_icon_key s = false.
Proof.
  rewrite <- not_true_iff_false, <- Icon_of_defined.
  destruct (Icon_of s) as [g|]; split; intros H;
    [discriminate | exfalso; apply H; by eexists | intros [? [=]] | done].
Qed.

#[export] Hint Rewrite icon_of_key_icon_key is_icon_key_icon_key : ui.
#[export] Hint Resolve is_icon_key_icon_key icon_kind_in_all : ui.

(** ** Properties *)

End Icons.
