(* ===== verification/JsObject.v ===== *)
(** * JS object assignment and spread

    [o[k] = v] replaces the value of an existing property in place and
    appends a new one; [Object.assign(a, b)] (and [{...a, ...b}], and JSX
    props [<C {...a} {...b} />]) assigns [b]'s properties to [a] in [b]'s
    order.  Objects are the association lists of [Icons.object], in
    insertion order.  The reference semantics is the lookup one: a property
    of the result is [b]'s when [b] has it and [a]'s otherwise
    ([object_assign_get_gen]). *)

From S2P Require Import Prelude.
From S2P Require Import Icons.
Import Icons.

Module JsObject.

(** [o[k] = v]. *)
Fixpoint object_set {A} (k : string) (v : A) (o : object A) : object A :=
  match o with
  | [] => [(k, v)]
  | (k', v') :: o' => if String.eqb k k' then (k', v) :: o' else (k', v') :: object_set k v o'
  end.

(** [Object.assign({...a}, b)]: [b]'s properties assigned in order. *)
Definition object_assign {A} (a b : object A) : object A :=
  fold_left (fun acc kv => object_set kv.1 kv.2 acc) b a.

(** The first defined of two lookups. *)
Definition first_some {A} (x y : option A) : option A :=
  match x with Some _ => x | None => y end.

(** An object has distinct property names. *)
Definition wf_object {A} (o : object A) : Prop := NoDup (object_keys o).

Section Lemmas.
Context {A : Type}.

Lemma object_get_set (k k' : string) (v : A) (o : object A) :
  object_get k (object_set k' v o) = if String.eqb k k' then Some v else object_get k o.
Proof.
  induction o as [|[k0 v0] o IH]; simpl.
  - by case_streq k k'.
  - case_streq k' k0; simpl.
    + subst k0. by case_streq k k'.
    + rewrite IH. case_streq k k'; case_streq k k0; subst; done.
Qed.

Lemma object_get_None (k : string) (o : object A) :
  k ∉ object_keys o -> object_get k o = None.
Proof.
  intros Hk. destruct (object_get k o) as [v|] eqn:E; [|done].
  apply object_get_In in E. by apply elem_of_list_In_iff in E.
Qed.

Lemma object_assign_cons (a : object A) (k : string) (v : A) (b : object A) :
  object_assign a ((k, v) :: b) = object_assign (object_set k v a) b.
Proof. reflexivity. Qed.

(** The lookup semantics of assignment, for a well-formed [b]. *)
Lemma object_assign_get_gen (a b : object A) (k : string) :
  wf_object b -> object_get k (object_assign a b) = first_some (object_get k b) (object_get k a).
Proof.
  unfold wf_object. revert a. induction b as [|[k' v] b IH]; intros a Hnd; [done|].
  simpl in Hnd. apply NoDup_cons in Hnd as [Hk' Hnd].
  rewrite object_assign_cons, IH by done. rewrite object_get_set. simpl.
  case_streq k k'.
  - subst k'. by rewrite object_get_None.
  - done.
Qed.

Lemma object_get_In_pair (k : string) (o : object A) (v : A) :
  object_get k o = Some v -> In (k, v) o.
Proof.
  induction o as [|[k' v'] o IH]; simpl; [done|].
  case_streq k k'; [intros [= <-]; subst; by left | auto].
Qed.

Lemma object_get_Forall (P : A -> Prop) (k : string) (o : object A) (v : A) :
  Forall (fun r => P r.2) o -> object_get k o = Some v -> P v.
Proof.
  intros HP Hv%object_get_In_pair. rewrite Forall_forall in HP.
  apply (HP (k, v)), elem_of_list_In_iff, Hv.
Qed.

End Lemmas.

End JsObject.
