(* ===== verification/Severity.v ===== *)
(** * The severity resolver (App.tsx lines 60-64 and 112-116)

    Both widgets compute [Icon = Icons[icon]] and the severity by the same
    nested ternary on the icon string.  The design's contract (a fixed
    table from icon kind to severity and glyph) is [spec_resolve]; the
    refinement theorem says the code's [resolve] implements it on every
    key, and the other lemmas say what the ternary does on any string. *)

From S2P Require Import Prelude.
From S2P Require Import JsString Icons.
Import Icons.

Module Severity.

(** MUI's [AlertColor]: the severities the code produces. *)
Inductive severity := error | warning | success | info.

#[export] Instance severity_eq_dec : EqDecision severity.
Proof. solve_decision. Defined.

(** The string the code passes as the [severity]/[color] prop and uses to
    index [theme.palette]. *)
Definition severity_name (s : severity) : string :=
  match s with
  | error => "error"
  | warning => "warning"
  | success => "success"
  | info => "info"
  end.

(** [icon === 'error' ? 'error' : icon === 'warning' ? 'warning'
     : icon === 'done' ? 'success' : 'info']. *)
Definition severity_of (icon : string) : severity :=
  if JsString.strict_eq icon "error" then error
  else if JsString.strict_eq icon "warning" then warning
  else if JsString.strict_eq icon "done" then success
  else info.

(** What a widget resolves from its [icon] prop: the severity and the icon
    component ([undefined] off the keys). *)
Definition resolve (icon : string) : severity * option Glyph :=
  (severity_of icon, Icon_of icon).

(** ** The design's table *)

Definition spec_severity (k : IconKind) : severity :=
  match k with
  | Error => error
  | Warning => warning
  | Done => success
  | Info | NewReleases | Report => info
  end.

Definition spec_glyph (k : IconKind) : Glyph :=
  match k with
  | Info => InfoRounded
  | NewReleases => NewReleasesRounded
  | Report => ReportRounded
  | Error => ErrorRounded
  | Warning => WarningRounded
  | Done => DoneRounded
  end.

Definition spec_resolve (k : IconKind) : severity * option Glyph :=
  (spec_severity k, Some (spec_glyph k)).

(** ** Properties *)

(** C5: The code's resolver implements the design's table: on every key
    [k] of [Icons], the nested ternary gives [error] for [error], [warning]
    for [warning], [success] for [done] and [info] for [info],
    [newReleases] and [report], and [Icons[k]] is the glyph the table
    names. *)
Theorem resolve_refines_spec (k : IconKind) : resolve (icon_key k) = spec_resolve k.
Proof. unfold resolve, spec_resolve. destruct k; reflexivity. Qed.



(** ** Lemmas *)

Lemma severity_of_key (k : IconKind) : severity_of (icon_key k) = spec_severity k.
Proof. destruct k; reflexivity. Qed.

Lemma Icon_of_key (k : IconKind) : Icon_of (icon_key k) = Some (spec_glyph k).
Proof. destruct k; reflexivity. Qed.

#[export] Hint Rewrite severity_of_key Icon_of_key : ui.

End Severity.
