(* ===== verification/Theme.v ===== *)
(** * The theme and the backdrop style (App.tsx lines 14-41, 70-79, 129-136)

    [theme] is [createTheme] applied to the transition settings of lines
    14-41; its palette is MUI's default one, which the code indexes by
    severity name.  The palette is an interface ([Palette]): the theorems
    hold for any palette, and [mui_palette] is MUI's default light palette.
    Both widgets draw the same backdrop [Box]; [backdrop] is the [sx] object
    they compute. *)

From S2P Require Import Prelude.
From S2P Require Import JsString Icons Severity.
Import Severity.

Module Theme.

Record easing := {
  easeInOut : string;
  easeOut : string;
  easeIn : string;
  sharp : string
}.

Record duration := {
  shortest : nat;
  shorter : nat;
  short : nat;
  standard : nat;
  complex : nat;
  enteringScreen : nat;
  leavingScreen : nat
}.

Record transitions := { t_easing : easing; t_duration : duration }.

(** [theme.transitions]. *)
Definition theme : transitions := {|
  t_easing := {|
    easeInOut := "cubic-bezier(0.4, 0, 0.2, 1)";
    easeOut := "cubic-bezier(0.0, 0, 0.2, 1)";
    easeIn := "cubic-bezier(0.4, 0, 1, 1)";
    sharp := "cubic-bezier(0.4, 0, 0.6, 1)" |};
  t_duration := {|
    shortest := 150; shorter := 200; short := 250; standard := 300;
    complex := 375; enteringScreen := 225; leavingScreen := 195 |}
|}.

(** [theme.palette[severity]]: the palette colours the code reads. *)
Class Palette := {
  palette_main : severity -> string;
  palette_light : severity -> string
}.

(** MUI's default light palette. *)
#[export] Instance mui_palette : Palette := {|
  palette_main s :=
    match s with
    | error => "#d32f2f" | warning => "#ed6c02" | success => "#2e7d32" | info => "#0288d1"
    end;
  palette_light s :=
    match s with
    | error => "#ef5350" | warning => "#ff9800" | success => "#4caf50" | info => "#03a9f4"
    end
|}.

(** The [sx] object of the backdrop [Box]. *)
Record backdrop_sx := {
  bx_position : string;
  bx_bottom : nat;
  bx_width : string;
  bx_left : nat;
  bx_right : nat;
  bx_overflow : string;
  bx_height : nat;
  bx_opacity : nat;
  bx_background : string;
  bx_transitionTimingFunction : string;
  bx_transitionProperty : string;
  bx_transitionDuration : string
}.

Section Backdrop.
Context `{Palette}.

(** [`linear-gradient(0deg, ${theme.palette[severity].main}30 0%,
     rgba(255,255,255,0) 90%)`]. *)
Definition gradient_prefix : string := "linear-gradient(0deg, ".
Definition gradient_suffix : string := "30 0%, rgba(255,255,255,0) 90%)".

Definition backdrop_background (sev : severity) : string :=
  String.append gradient_prefix (String.append (palette_main sev) gradient_suffix).

Definition backdrop (open : bool) (sev : severity) : backdrop_sx := {|
  bx_position := "absolute";
  bx_bottom := 0;
  bx_width := "100%";
  bx_left := 0;
  bx_right := 0;
  bx_overflow := "hidden";
  bx_height := 25;
  bx_opacity := if open then 1 else 0;
  bx_background := backdrop_background sev;
  bx_transitionTimingFunction := theme.(t_easing).(easeInOut);
  bx_transitionProperty := "opacity";
  bx_transitionDuration := JsString.ms_string theme.(t_duration).(short)
|}.

End Backdrop.

End Theme.
