(* ===== verification/Mui.v ===== *)
(** * The MUI behaviour the program relies on

    The code delegates its state changes to three MUI components; this file
    states what each does, as the code observes it.
    - [ToggleButtonGroup exclusive]: clicking the button of value [v] calls
      the group's [onChange] with [v], or with [null] when [v] is already
      the group's value.  [ExclusiveToggleGroup] is the interface (the value
      passed is [null] or the clicked one, and the clicked one when it is
      not selected); [mui_toggle_group] is MUI's implementation.
    - [RadioGroup] without [value]: the group keeps its own value, starting
      at [defaultValue]; clicking a radio that is not checked selects it and
      calls [onChange] with an event whose target value is the radio's
      (a checked radio fires no change event).
    - [Popper transition]: the popper keeps an [exited] flag, [true] at
      mount; it renders its child while [open] or while the exit transition
      runs ([!exited]); entering clears the flag, the end of the exit
      transition ([onExited]) sets it. *)

From S2P Require Import Prelude.

Module Mui.

(** ** Exclusive toggle groups *)

Class ExclusiveToggleGroup := {
  toggle_new_value : option string -> string -> option string;
  toggle_new_value_cases cur v :
    toggle_new_value cur v = None \/ toggle_new_value cur v = Some v;
  toggle_new_value_unselected cur v :
    cur <> Some v -> toggle_new_value cur v = Some v
}.

(** [onChange(event, value === buttonValue ? null : buttonValue)]. *)
Definition mui_exclusive_value (value : option string) (buttonValue : string) : option string :=
  if decide (value = Some buttonValue) then None else Some buttonValue.

Lemma mui_exclusive_value_cases cur v :
  mui_exclusive_value cur v = None \/ mui_exclusive_value cur v = Some v.
Proof. unfold mui_exclusive_value. repeat case_decide; auto. Qed.

Lemma mui_exclusive_value_unselected cur v :
  cur <> Some v -> mui_exclusive_value cur v = Some v.
Proof. unfold mui_exclusive_value. intros. repeat case_decide; done. Qed.

#[export] Instance mui_toggle_group : ExclusiveToggleGroup := {|
  toggle_new_value := mui_exclusive_value;
  toggle_new_value_cases := mui_exclusive_value_cases;
  toggle_new_value_unselected := mui_exclusive_value_unselected
|}.

(** ** Uncontrolled radio groups *)

Record radio_group := { rg_value : option string }.

Definition radio_group_init (defaultValue : option string) : radio_group :=
  {| rg_value := defaultValue |}.

(** Clicking the radio of value [v]: the new group state and the value the
    change event carries, if one fires. *)
Definition radio_click (g : radio_group) (v : string) : radio_group * option string :=
  if decide (g.(rg_value) = Some v) then (g, None)
  else ({| rg_value := Some v |}, Some v).

(** ** Poppers with a transition *)

Record popper := { pp_exited : bool }.

Definition popper_init : popper := {| pp_exited := true |}.

(** [if (!keepMounted && !open && (!transition || exited)) return null]. *)
Definition popper_rendered (open : bool) (p : popper) : bool := open || negb p.(pp_exited).

(** The enter transition runs when the popper opens. *)
Definition popper_sync (open : bool) (p : popper) : popper :=
  if open then {| pp_exited := false |} else p.

(** [onExited], at the end of the exit transition. *)
Definition popper_exit_end (p : popper) : popper := {| pp_exited := true |}.

End Mui.
