(* ===== verification/Content.v ===== *)
(** * Widget content: [MyCustomError] and [children] (App.tsx lines
    197-201, 86, 155)

    The widgets take a [children] prop and render it inside a
    [<Box mx={1}>] (the Alert's line 86, the Paper's content container of
    line 155); [App] passes [<MyCustomError />], a [Box] with one line of
    text.  An element is modelled as the tree React renders: text nodes and
    [Box]es with their [mx] spacing prop.  JSX drops the whitespace-only
    lines around the text of lines 198-200, so the text node is the line's
    trimmed text. *)

From S2P Require Import Prelude.

Module Content.

#[local] Set Warnings "-register-all".

Inductive node :=
  | Text (s : string)
  | Box (mx : option nat) (kids : list node).

(** [function MyCustomError() { return <Box> Jugal sir jindabad </Box> }]. *)
Definition MyCustomError : node := Box None [Text "Jugal sir jindabad"].

(** [<Box mx={1}>{children}</Box>]: an absent [children] renders nothing. *)
Definition content_box (children : option node) : node := Box (Some 1) (option_list children).

End Content.
