(* ===== verification/Floating.v ===== *)
(** * The floating widgets (App.tsx lines 43-91 and 94-162)

    [AlertFloatingBottom] and [PaperFloatingBottom] take
    [{icon, open, onClose?, onOk?, children}].  A render is a function of
    the props and of the popper's transition state to the view the widget
    produces: the backdrop, the popper's props, and, while the popper
    renders its child, the body with the controls a user can click.  The
    body instantiates [<Icon />], which throws when [Icons[icon]] is
    [undefined]; a render that throws is [None].  A click on a control runs
    its handler, which returns the callbacks it invokes ([onClose?.()],
    [onOk?.()]).  Callbacks are values of a type [Cb] the parent chooses.
    [children] is rendered in the body's content [Box] ([Content]). *)

From S2P Require Import Prelude.
From S2P Require Import JsString Icons Severity Theme Mui Content.
Import Icons Severity Theme Mui Content.

Module Floating.

(** The controls of the two widgets' bodies. *)
Inductive control :=
  | AlertCloseButton   (** the close button MUI's [Alert] draws for [onClose] *)
  | OkButton           (** [actionOkElement] *)
  | CancelButton       (** [actionCloseElement] *)
  | CloseIconButton.   (** [actionCloseIcon] *)

#[export] Instance control_eq_dec : EqDecision control.
Proof. solve_decision. Defined.

Record slide := {
  sl_direction : string;
  sl_timeout : nat;
  sl_enter : string;
  sl_exit : string
}.

Record alert_body := {
  ab_slide : slide;
  ab_severity : severity;
  ab_icon : Glyph;
  ab_content : node;
  ab_controls : list control
}.

Record paper_body := {
  pb_slide : slide;
  pb_border : string;
  pb_icon : Glyph;
  pb_icon_color : string;
  pb_content : node;
  pb_ok_color : string;
  pb_controls : list control
}.

(** What a widget renders: the backdrop [Box], the [Popper]'s props, and
    the popper's child when it renders one. *)
Record view (B : Type) := {
  v_id : string;
  v_backdrop : backdrop_sx;
  v_popper_open : bool;
  v_placement : option string;
  v_body : option B
}.
Arguments v_id {B}. Arguments v_backdrop {B}. Arguments v_popper_open {B}.
Arguments v_placement {B}. Arguments v_body {B}.

Section Widgets.
Context `{Palette} {Cb : Type}.

Record props := {
  p_icon : string;
  p_open : bool;
  p_onClose : option Cb;
  p_onOk : option Cb;
  p_children : option node
}.

(** [const id = 'floatingbottomcomponent'] (lines 68 and 127). *)
Definition widget_id : string := "floatingbottomcomponent".

(** [handleActionCloseClick] and [handleActionOkClick]. *)
Definition handleActionCloseClick (p : props) : list Cb := p.(p_onClose) ?.().
Definition handleActionOkClick (p : props) : list Cb := p.(p_onOk) ?.().

(** The popper's child, when the popper renders it: [None] when
    instantiating [<Icon />] throws. *)
Definition popper_child {B} (rendered : bool) (icon : string) (mk : Glyph -> B)
  : option (option B) :=
  if rendered then
    match Icon_of icon with
    | Some g => Some (Some (mk g))
    | None => None
    end
  else Some None.

Definition AlertFloatingBottom (p : props) (pp : popper) : option (view alert_body) :=
  let severity := severity_of p.(p_icon) in
  let body g := {|
    ab_slide := {| sl_direction := "up"; sl_timeout := theme.(t_duration).(short);
                   sl_enter := theme.(t_easing).(easeOut); sl_exit := theme.(t_easing).(easeOut) |};
    ab_severity := severity;
    ab_icon := g;
    ab_content := content_box p.(p_children);
    ab_controls := [AlertCloseButton] |} in
  match popper_child (popper_rendered p.(p_open) pp) p.(p_icon) body with
  | Some b => Some {|
      v_id := widget_id;
      v_backdrop := backdrop p.(p_open) severity;
      v_popper_open := p.(p_open);
      v_placement := Some "bottom";
      v_body := b |}
  | None => None
  end.

(** The Alert's only control is its close button. *)
Definition alert_click (p : props) (c : control) : list Cb :=
  match c with
  | AlertCloseButton => handleActionCloseClick p
  | _ => []
  end.

Definition PaperFloatingBottom (p : props) (pp : popper) : option (view paper_body) :=
  let severity := severity_of p.(p_icon) in
  let actionClose := match p.(p_onClose) with Some _ => CloseIconButton | None => CancelButton end in
  let body g := {|
    pb_slide := {| sl_direction := "up"; sl_timeout := theme.(t_duration).(short);
                   sl_enter := theme.(t_easing).(easeInOut); sl_exit := theme.(t_easing).(easeInOut) |};
    pb_border := String.append "1px solid " (palette_light severity);
    pb_icon := g;
    pb_icon_color := severity_name severity;
    pb_content := content_box p.(p_children);
    pb_ok_color := severity_name severity;
    pb_controls := [OkButton; actionClose] |} in
  match popper_child (popper_rendered p.(p_open) pp) p.(p_icon) body with
  | Some b => Some {|
      v_id := widget_id;
      v_backdrop := backdrop p.(p_open) severity;
      v_popper_open := p.(p_open);
      v_placement := None;
      v_body := b |}
  | None => None
  end.

Definition paper_click (p : props) (c : control) : list Cb :=
  match c with
  | OkButton => handleActionOkClick p
  | CancelButton | CloseIconButton => handleActionCloseClick p
  | AlertCloseButton => []
  end.

End Widgets.

Arguments props : clear implicits.

(** ** Lemmas *)

Section Lemmas.
Context `{PAL : Palette} {Cb : Type}.



Lemma widgets_render_on_key (p : props Cb) pp1 pp2 :
  is_icon_key p.(p_icon) = true ->
  is_Some (AlertFloatingBottom p pp1) /\ is_Some (PaperFloatingBottom p pp2).
Proof.
  intros [g Hg]%Icon_of_defined. unfold AlertFloatingBottom, PaperFloatingBottom, popper_child.
  rewrite Hg. destruct (popper_rendered _ pp1), (popper_rendered _ pp2); split; eauto.
Qed.

Lemma AlertFloatingBottom_view (p : props Cb) pp v :
  AlertFloatingBottom p pp = Some v ->
  v.(v_id) = widget_id /\ v.(v_backdrop) = backdrop p.(p_open) (severity_of p.(p_icon)) /\
  v.(v_popper_open) = p.(p_open) /\
  (v.(v_body) = None <-> popper_rendered p.(p_open) pp = false) /\
  forall b, v.(v_body) = Some b ->
    b.(ab_severity) = severity_of p.(p_icon) /\ Icon_of p.(p_icon) = Some b.(ab_icon) /\
    b.(ab_controls) = [AlertCloseButton].
Proof.
  unfold AlertFloatingBottom, popper_child.
  destruct (popper_rendered _ _), (Icon_of _) eqn:E; intros; simplify_eq; simpl;
    repeat split; intros; simplify_eq; done.
Qed.

Lemma PaperFloatingBottom_view (p : props Cb) pp v :
  PaperFloatingBottom p pp = Some v ->
  v.(v_id) = widget_id /\ v.(v_backdrop) = backdrop p.(p_open) (severity_of p.(p_icon)) /\
  v.(v_popper_open) = p.(p_open) /\
  (v.(v_body) = None <-> popper_rendered p.(p_open) pp = false) /\
  forall b, v.(v_body) = Some b ->
    b.(pb_icon_color) = severity_name (severity_of p.(p_icon)) /\
    Icon_of p.(p_icon) = Some b.(pb_icon) /\
    b.(pb_controls) =
      [OkButton; match p.(p_onClose) with Some _ => CloseIconButton | None => CancelButton end].
Proof.
  unfold PaperFloatingBottom, popper_child.
  destruct (popper_rendered _ _), (Icon_of _) eqn:E; intros; simplify_eq; simpl;
    repeat split; intros; simplify_eq; done.
Qed.

(** ** Properties *)

(** C18: The Alert widget never invokes [onOk]: the OK and Cancel buttons
    it builds (lines 65-66) are never rendered, its only control is the
    [Alert]'s close button, and clicking it runs [onClose?.()]. *)
Theorem alert_controls_only_close (p : props Cb) pp v b c :
  AlertFloatingBottom p pp = Some v -> v.(v_body) = Some b -> c ∈ b.(ab_controls) ->
  c = AlertCloseButton /\ alert_click p c = p.(p_onClose) ?.().
Proof.
  intros (_ & _ & _ & _ & Hb)%AlertFloatingBottom_view Hv Hc.
  destruct (Hb b Hv) as (_ & _ & Hctl). rewrite Hctl in Hc.
  by apply list_elem_of_singleton in Hc as ->.
Qed.

(** C19: The Paper widget renders an OK button and, after it, the close
    icon when [onClose] is given or the Cancel button otherwise; OK runs
    [onOk?.()] and the other control runs [onClose?.()]. *)
Theorem paper_controls_handlers (p : props Cb) pp v b :
  PaperFloatingBottom p pp = Some v -> v.(v_body) = Some b ->
  b.(pb_controls) =
    [OkButton; match p.(p_onClose) with Some _ => CloseIconButton | None => CancelButton end] /\
  forall c, c ∈ b.(pb_controls) ->
    paper_click p c = if decide (c = OkButton) then p.(p_onOk) ?.() else p.(p_onClose) ?.().
Proof.
  intros (_ & _ & _ & _ & Hb)%PaperFloatingBottom_view Hv.
  destruct (Hb b Hv) as (_ & _ & Hctl). split; [done|]. intros c. rewrite Hctl.
  intros [-> | ->%list_elem_of_singleton]%elem_of_cons; [by rewrite decide_True|].
  destruct (p_onClose p) eqn:E; rewrite decide_False by done;
    unfold paper_click, handleActionCloseClick; by rewrite E.
Qed.


End Lemmas.

(** A closed example: [Cb := nat], MUI's palette. *)
Definition demo_props (icon : string) (open : bool) (onClose : option nat) : props nat :=
  {| p_icon := icon; p_open := open; p_onClose := onClose; p_onOk := Some 7; p_children := None |}.

Lemma alert_controls_only_close_witness :
  exists v b, AlertFloatingBottom (demo_props "error" true (Some 1)) popper_init = Some v /\
    v.(v_body) = Some b /\ AlertCloseButton ∈ b.(ab_controls) /\
    (AlertCloseButton = AlertCloseButton /\
     alert_click (demo_props "error" true (Some 1)) AlertCloseButton = [1]).
Proof.
  eexists _, _. split; [reflexivity|]. split; [reflexivity|].
  split; [apply list_elem_of_here|].
  eapply (alert_controls_only_close (demo_props "error" true (Some 1)) popper_init);
    [reflexivity | reflexivity | apply list_elem_of_here].
Defined.

Lemma paper_controls_handlers_witness :
  exists v b, PaperFloatingBottom (demo_props "done" true None) popper_init = Some v /\
    v.(v_body) = Some b /\
    (b.(pb_controls) = [OkButton; CancelButton] /\
     forall c, c ∈ b.(pb_controls) ->
       paper_click (demo_props "done" true None) c = if decide (c = OkButton) then [7] else []).
Proof.
  eexists _, _. split; [reflexivity|]. split; [reflexivity|].
  eapply (paper_controls_handlers (demo_props "done" true None) popper_init); reflexivity.
Defined.

End Floating.
