(* ===== verification/Toggle.v ===== *)
(** * [ErrorToggleButton] (App.tsx lines 165-195)

    A controlled exclusive [ToggleButtonGroup] of the two values ["Open"]
    and ["Close"]; its value is the [defaultValue] prop (the [useState] is
    commented out), and [handleChange] forwards the group's new value,
    [null] included, to [onChange?.()].  The theorems about the group hold
    for any [ExclusiveToggleGroup]. *)

From S2P Require Import Prelude.
From S2P Require Import JsString Mui.
Import Mui.

Module Toggle.

Section Toggle.
Context `{ExclusiveToggleGroup} {Cb : Type}.

Record toggle_props := {
  tp_defaultValue : option string;
  tp_onChange : option (option string -> Cb)
}.

(** [const values = ['Open', 'Close']]. *)
Definition values : list string := ["Open"; "Close"].

(** [handleChange(event, newAlignment)]: [onChange?.(newAlignment)]. *)
Definition handleChange (p : toggle_props) (newAlignment : option string) : list Cb :=
  (option_map (fun f => f newAlignment) p.(tp_onChange)) ?.().

(** A click on the button of value [v]: the group computes the new value
    from its current one, the [alignment] prop. *)
Definition toggle_click (p : toggle_props) (v : string) : list Cb :=
  handleChange p (toggle_new_value p.(tp_defaultValue) v).

(** ** Properties *)

(** C9: For any exclusive toggle group, a click on a button of
    [ErrorToggleButton] calls [onChange] exactly once, with the clicked
    value or with [null]; with the clicked value whenever that button is
    not the group's current value. *)
Theorem toggle_click_forwards (p : toggle_props) f v :
  p.(tp_onChange) = Some f ->
  (toggle_click p v = [f None] \/ toggle_click p v = [f (Some v)]) /\
  (p.(tp_defaultValue) <> Some v -> toggle_click p v = [f (Some v)]).
Proof.
  intros Hf. unfold toggle_click, handleChange. rewrite Hf. simpl. split.
  - destruct (toggle_new_value_cases p.(tp_defaultValue) v) as [-> | ->]; auto.
  - intros Hne. by rewrite toggle_new_value_unselected.
Qed.

End Toggle.

Arguments toggle_props : clear implicits.

Lemma toggle_click_forwards_witness :
  let p := {| tp_defaultValue := Some "Close"; tp_onChange := Some (fun v : option string => v) |} in
  p.(tp_onChange) = Some (fun v => v) /\
  ((toggle_click p "Open" = [None] \/ toggle_click p "Open" = [Some "Open"]) /\
   (p.(tp_defaultValue) <> Some "Open" -> toggle_click p "Open" = [Some "Open"])).
Proof.
  intros p. split; [reflexivity|].
  apply (toggle_click_forwards p (fun v => v) "Open"). reflexivity.
Defined.

End Toggle.
