(* ===== verification/Styles.v ===== *)
(** * The styled radio icons (App.tsx lines 203-256)

    [BpIcon] is a [styled('span')] whose style object is computed from the
    theme's palette mode; [BpCheckedIcon] is [styled(BpIcon)] with a second
    style object; [BpRadio] renders MUI's [Radio] with default props
    followed by the caller's [{...props}].

    A style object is modelled as it is written: its scalar declarations
    ([st_decls]) and its nested selector rules ([st_rules], each an object
    of scalar declarations); the source nests no deeper.  [styled(C)(s)]
    emits [C]'s rules and then [s]'s, so for every selector and property
    the later declaration wins: [style_compose] merges the two objects rule
    by rule with [Object.assign] semantics. *)

From S2P Require Import Prelude.
From S2P Require Import JsString Icons JsObject.
Import Icons JsObject.

Module Styles.

(** A CSS value: a number (pixels) or a string. *)
Inductive cssv := CNum (n : nat) | CStr (s : string).

#[export] Instance cssv_eq_dec : EqDecision cssv.
Proof. solve_decision. Defined.

Record style := {
  st_decls : object cssv;
  st_rules : object (object cssv)
}.

(** [theme.palette.mode]. *)
Inductive palette_mode := light | dark.

Definition mode_name (m : palette_mode) : string :=
  match m with light => "light" | dark => "dark" end.

(** [theme.palette.mode === 'dark' ? d : l]. *)
Definition by_mode {A} (m : palette_mode) (d l : A) : A :=
  if JsString.strict_eq (mode_name m) "dark" then d else l.

(** The CSS string [""] (two double quotes), the value of [content]. *)
Definition empty_content : string :=
  String (ascii_of_nat 34) (String (ascii_of_nat 34) EmptyString).

Definition BpIcon (m : palette_mode) : style := {|
  st_decls := [
    ("borderRadius", CStr "50%");
    ("width", CNum 16);
    ("height", CNum 16);
    ("boxShadow", CStr (by_mode m "0 0 0 1px rgb(16 22 26 / 40%)"
        "inset 0 0 0 1px rgba(16,22,26,.2), inset 0 -1px 0 rgba(16,22,26,.1)"));
    ("backgroundColor", CStr (by_mode m "#394b59" "#f5f8fa"));
    ("backgroundImage", CStr (by_mode m
        "linear-gradient(180deg,hsla(0,0%,100%,.05),hsla(0,0%,100%,0))"
        "linear-gradient(180deg,hsla(0,0%,100%,.8),hsla(0,0%,100%,0))"))];
  st_rules := [
    (".Mui-focusVisible &", [("outline", CStr "2px auto rgba(19,124,189,.6)");
                             ("outlineOffset", CNum 2)]);
    ("input:hover ~ &", [("backgroundColor", CStr (by_mode m "#30404d" "#ebf1f5"))]);
    ("input:disabled ~ &", [("boxShadow", CStr "none");
                            ("background", CStr (by_mode m "rgba(57,75,89,.5)"
                                                  "rgba(206,217,224,.5)"))])]
|}.

(** The style object [styled(BpIcon)] is given (lines 230-243). *)
Definition BpCheckedIcon_overrides : style := {|
  st_decls := [
    ("backgroundColor", CStr "#137cbd");
    ("backgroundImage", CStr "linear-gradient(180deg,hsla(0,0%,100%,.1),hsla(0,0%,100%,0))")];
  st_rules := [
    ("&::before", [("display", CStr "block"); ("width", CNum 16); ("height", CNum 16);
                   ("backgroundImage", CStr "radial-gradient(#fff,#fff 28%,transparent 32%)");
                   ("content", CStr empty_content)]);
    ("input:hover ~ &", [("backgroundColor", CStr "#106ba3")])]
|}.

(** Rule-by-rule merge of two rule objects. *)
Definition rules_merge (a b : object (object cssv)) : object (object cssv) :=
  fold_left (fun acc r =>
    object_set r.1 (match object_get r.1 acc with
                    | Some d => object_assign d r.2
                    | None => r.2
                    end) acc) b a.

(** [styled(C)(s)]: [C]'s style, then [s]'s. *)
Definition style_compose (base over : style) : style := {|
  st_decls := object_assign base.(st_decls) over.(st_decls);
  st_rules := rules_merge base.(st_rules) over.(st_rules)
|}.

Definition BpCheckedIcon (m : palette_mode) : style :=
  style_compose (BpIcon m) BpCheckedIcon_overrides.

(** The declaration a style gives a property, on the element itself
    ([None]) or under a nested selector. *)
Definition style_decl (st : style) (sel : option string) (prop : string) : option cssv :=
  match sel with
  | None => object_get prop st.(st_decls)
  | Some r => match object_get r st.(st_rules) with
              | Some d => object_get prop d
              | None => None
              end
  end.

(** A style object has distinct selectors, and each declaration block
    distinct properties. *)
Definition wf_style (st : style) : Prop :=
  wf_object st.(st_decls) /\ wf_object st.(st_rules) /\
  Forall (fun r => wf_object r.2) st.(st_rules).

(** ** [BpRadio] *)

(** A prop value of MUI's [Radio]: a boolean, a string, or an element. *)
Inductive pval := PBool (b : bool) | PStr (s : string) | PElem (name : string).

#[export] Instance pval_eq_dec : EqDecision pval.
Proof. solve_decision. Defined.

Definition bp_radio_defaults : object pval :=
  [("disableRipple", PBool true); ("color", PStr "default");
   ("checkedIcon", PElem "BpCheckedIcon"); ("icon", PElem "BpIcon")].

(** [<Radio disableRipple color="default" checkedIcon=... icon=... {...props} />]. *)
Definition BpRadio (props : object pval) : object pval := object_assign bp_radio_defaults props.

(** The icon a [Radio] draws: [checked ? checkedIcon : icon]. *)
Definition radio_icon (props : object pval) (checked : bool) : option pval :=
  object_get (if checked then "checkedIcon" else "icon") props.

(** ** Lemmas *)

Lemma first_some_None_r {A} (x : option A) : first_some x None = x.
Proof. by destruct x. Qed.

Lemma rules_merge_cons a sel d b :
  rules_merge a ((sel, d) :: b) =
  rules_merge (object_set sel (match object_get sel a with
                               | Some d0 => object_assign d0 d | None => d end) a) b.
Proof. reflexivity. Qed.

Lemma rules_merge_get (a b : object (object cssv)) (sel : string) :
  wf_object b ->
  object_get sel (rules_merge a b) =
  match object_get sel b with
  | Some d => Some (match object_get sel a with Some d0 => object_assign d0 d | None => d end)
  | None => object_get sel a
  end.
Proof.
  unfold wf_object. revert a. induction b as [|[sel' d] b IH]; intros a Hnd; [done|].
  simpl in Hnd. apply NoDup_cons in Hnd as [Hs Hnd].
  rewrite rules_merge_cons, IH by done. rewrite object_get_set. simpl.
  case_streq sel sel'.
  - subst sel'. by rewrite object_get_None.
  - done.
Qed.

(** Composition is the declaration-wise override of the base by the
    later style. *)
Lemma style_compose_decl (base over : style) (sel : option string) (prop : string) :
  wf_style over ->
  style_decl (style_compose base over) sel prop =
  first_some (style_decl over sel prop) (style_decl base sel prop).
Proof.
  intros (Hd & Hr & Hb). destruct sel as [r|]; simpl.
  - rewrite rules_merge_get by done.
    destruct (object_get r (st_rules over)) as [d|] eqn:Eo; simpl; [|done].
    assert (wf_object d) by exact (object_get_Forall wf_object r _ d Hb Eo).
    destruct (object_get r (st_rules base)); simpl.
    + by rewrite object_assign_get_gen.
    + by rewrite first_some_None_r.
  - by apply object_assign_get_gen.
Qed.

Lemma wf_style_dec_ok (st : style) :
  bool_decide (NoDup (object_keys st.(st_decls))) &&
  bool_decide (NoDup (object_keys st.(st_rules))) &&
  forallb (fun r => bool_decide (NoDup (object_keys r.2))) st.(st_rules) = true ->
  wf_style st.
Proof.
  intros [[H1 H2]%andb_prop H3]%andb_prop. apply bool_decide_eq_true in H1, H2.
  split; [done|]. split; [done|]. apply Forall_forall. intros r Hr.
  rewrite forallb_forall in H3. apply (bool_decide_eq_true_1 _), (H3 r), elem_of_list_In_iff, Hr.
Qed.

Lemma BpCheckedIcon_overrides_wf : wf_style BpCheckedIcon_overrides.
Proof. apply wf_style_dec_ok. vm_compute. reflexivity. Qed.

(** ** Properties *)

(** C21: In both palette modes the checked radio icon is told apart
    from the unchecked one: [BpCheckedIcon] keeps [BpIcon]'s shape (border
    radius, width, height), its shadow and its focus outline, but its
    background colour, its background image and its hover background all
    differ from [BpIcon]'s, and only the checked icon draws the
    [::before] dot. *)
Theorem checked_icon_distinct (m : palette_mode) :
  Forall (fun prop => style_decl (BpCheckedIcon m) None prop = style_decl (BpIcon m) None prop)
    ["borderRadius"; "width"; "height"; "boxShadow"] /\
  style_decl (BpCheckedIcon m) (Some ".Mui-focusVisible &") "outline" =
    style_decl (BpIcon m) (Some ".Mui-focusVisible &") "outline" /\
  Forall (fun prop => style_decl (BpCheckedIcon m) None prop <> style_decl (BpIcon m) None prop)
    ["backgroundColor"; "backgroundImage"] /\
  style_decl (BpCheckedIcon m) (Some "input:hover ~ &") "backgroundColor" <>
    style_decl (BpIcon m) (Some "input:hover ~ &") "backgroundColor" /\
  is_Some (style_decl (BpCheckedIcon m) (Some "&::before") "content") /\
  style_decl (BpIcon m) (Some "&::before") "content" = None.
Proof.
  unfold BpCheckedIcon. rewrite !Forall_cons, !style_compose_decl by apply BpCheckedIcon_overrides_wf.
  destruct m; vm_compute; repeat split; first [discriminate | by eexists | constructor].
Qed.

End Styles.
