(* ===== verification/Radio.v ===== *)
(** * [RadioButtons] (App.tsx lines 258-272)

    An uncontrolled MUI [RadioGroup] with one [BpRadio] per value of
    [values], starting at [defaultValue], whose [onChange] receives the
    change event; the event is modelled by the value of the radio it comes
    from ([event.currentTarget.value]).  The styled icons [BpIcon],
    [BpCheckedIcon] and [BpRadio] (lines 203-256) only change how a radio
    is drawn: [RadioButtons_view] lists, for each value, the icon element
    its [BpRadio] draws ([Radio] draws [checkedIcon] when the group's value
    is the radio's, [icon] otherwise). *)

From S2P Require Import Prelude.
From S2P Require Import Icons JsObject Styles Mui.
Import Icons JsObject Styles Mui.

Module Radio.

Section Radio.
Context {Cb : Type}.

Record radio_props := {
  rp_values : list string;
  rp_label : string;
  rp_defaultValue : string;
  rp_onChange : string -> Cb
}.

(** The group's state at mount. *)
Definition radio_mount (p : radio_props) : radio_group :=
  radio_group_init (Some p.(rp_defaultValue)).

(** A click on the radio of value [v]: [None] when no such radio is
    rendered ([values.map]); otherwise the group's new state and the
    callbacks the change event invokes. *)
Definition radio_buttons_click (p : radio_props) (g : radio_group) (v : string)
  : option (radio_group * list Cb) :=
  if decide (v ∈ p.(rp_values)) then
    let '(g', ev) := radio_click g v in
    Some (g', (option_map p.(rp_onChange) ev) ?.())
  else None.

(** The props [FormControlLabel] gives its [control]: the radio's [value]. *)
Definition control_props (v : string) : object pval := [("value", PStr v)].

(** [values.map(value => <FormControlLabel value={value} control={<BpRadio />} .../>)]:
    each radio's value with the icon element it draws. *)
Definition RadioButtons_view (p : radio_props) (g : radio_group) : list (string * option pval) :=
  map (fun v => (v, radio_icon (BpRadio (control_props v)) (bool_decide (g.(rg_value) = Some v))))
      p.(rp_values).

End Radio.

Arguments radio_props : clear implicits.

End Radio.
