(* ===== verification/App.v ===== *)
(** * The demo screen [App] (App.tsx lines 274-302)

    [App] owns three state hooks ([open], [openAlert], [selectedIcon]) and
    renders a [RadioButtons] over [Object.keys(Icons)], two
    [ErrorToggleButton]s and the two floating widgets.  The closures it
    passes down are the constructors of [app_cb]; [run_cb] is what calling
    one does to the hooks.  The screen's state is the hooks plus the state
    MUI keeps inside the radio group and the two poppers.  A user event is
    handled in two phases, as React does: [dispatch] runs the clicked
    control's handler and collects the callbacks it invokes; [commit]
    applies their state updates in order and lets each popper's transition
    follow its new [open] prop.  An event on a screen whose render throws,
    or on a control that is not rendered, is not enabled ([None]). *)

From S2P Require Import Prelude.
From S2P Require Import JsString Icons JsObject Severity Theme Mui Content Floating Toggle Styles Radio.
Import Icons JsObject Severity Theme Mui Content Floating Toggle Styles Radio.

Module App.

(** [React.useState] hooks of lines 275-278. *)
Record hooks := {
  open : bool;
  openAlert : bool;
  selectedIcon : string
}.

Definition hooks_init : hooks := {| open := false; openAlert := false; selectedIcon := "info" |}.

Definition setOpen (b : bool) (h : hooks) : hooks :=
  {| open := b; openAlert := h.(openAlert); selectedIcon := h.(selectedIcon) |}.
Definition setOpenAlert (b : bool) (h : hooks) : hooks :=
  {| open := h.(open); openAlert := b; selectedIcon := h.(selectedIcon) |}.
Definition setSelectedValue (v : string) (h : hooks) : hooks :=
  {| open := h.(open); openAlert := h.(openAlert); selectedIcon := v |}.

(** The closures [App] creates. *)
Inductive app_cb :=
  | HandleChange (v : string)             (** [handleChange], line 280 *)
  | OnAlertToggle (v : option string)     (** the [onChange] of line 289 *)
  | OnPaperToggle (v : option string)     (** the [onChange] of line 292 *)
  | AlertOnClose                          (** [() => setOpen(false)], line 294 *)
  | PaperOnClose.                         (** [() => setOpen(false)], line 297 *)

#[export] Instance app_cb_eq_dec : EqDecision app_cb.
Proof. solve_decision. Defined.

(** [value?.toLowerCase() === "open"]. *)
Definition is_open_value (value : option string) : bool :=
  JsString.optional_strict_eq (JsString.optional_toLowerCase value) "open".

Definition run_cb (c : app_cb) (h : hooks) : hooks :=
  match c with
  | HandleChange v => setSelectedValue v h
  | OnAlertToggle v => setOpenAlert (is_open_value v) h
  | OnPaperToggle v => setOpen (is_open_value v) h
  | AlertOnClose | PaperOnClose => setOpen false h
  end.

(** [open ? 'Open' : 'Close']. *)
Definition open_label (b : bool) : string := if b then "Open" else "Close".

(** The props [App] passes down. *)
Definition radio_p : radio_props app_cb := {|
  rp_values := object_keys Icons;
  rp_label := "Select Icon";
  rp_defaultValue := "info";
  rp_onChange := HandleChange
|}.

Definition alert_toggle_p (h : hooks) : toggle_props app_cb := {|
  tp_defaultValue := Some (open_label h.(openAlert));
  tp_onChange := Some OnAlertToggle
|}.

Definition paper_toggle_p (h : hooks) : toggle_props app_cb := {|
  tp_defaultValue := Some (open_label h.(open));
  tp_onChange := Some OnPaperToggle
|}.

Definition alert_p (h : hooks) : props app_cb := {|
  p_icon := h.(selectedIcon); p_open := h.(openAlert);
  p_onClose := Some AlertOnClose; p_onOk := None;
  p_children := Some MyCustomError
|}.

Definition paper_p (h : hooks) : props app_cb := {|
  p_icon := h.(selectedIcon); p_open := h.(open);
  p_onClose := Some PaperOnClose; p_onOk := None;
  p_children := Some MyCustomError
|}.

(** ** The screen *)

Record screen := {
  s_hooks : hooks;
  s_radio : radio_group;
  s_alert : popper;
  s_paper : popper
}.

Definition screen_init : screen := {|
  s_hooks := hooks_init;
  s_radio := radio_mount radio_p;
  s_alert := popper_init;
  s_paper := popper_init
|}.

Section Screen.
Context `{PAL : Palette} `{TG : ExclusiveToggleGroup}.

Record app_view := {
  w_alert : view alert_body;
  w_paper : view paper_body
}.

(** The render of [App]: [None] when a widget throws. *)
Definition App (s : screen) : option app_view :=
  match AlertFloatingBottom (alert_p s.(s_hooks)) s.(s_alert),
        PaperFloatingBottom (paper_p s.(s_hooks)) s.(s_paper) with
  | Some a, Some p => Some {| w_alert := a; w_paper := p |}
  | _, _ => None
  end.

Inductive event :=
  | ClickRadio (v : string)
  | ClickAlertToggle (v : string)
  | ClickPaperToggle (v : string)
  | ClickAlert (c : control)
  | ClickPaper (c : control)
  | AlertExited
  | PaperExited.

Definition with_radio (g : radio_group) (s : screen) : screen :=
  {| s_hooks := s.(s_hooks); s_radio := g; s_alert := s.(s_alert); s_paper := s.(s_paper) |}.
Definition with_alert (p : popper) (s : screen) : screen :=
  {| s_hooks := s.(s_hooks); s_radio := s.(s_radio); s_alert := p; s_paper := s.(s_paper) |}.
Definition with_paper (p : popper) (s : screen) : screen :=
  {| s_hooks := s.(s_hooks); s_radio := s.(s_radio); s_alert := s.(s_alert); s_paper := p |}.

(** A click on a control of a rendered body. *)
Definition body_click {B} (body : option B) (controls : B -> list control) (c : control)
  (handler : list app_cb) : option (list app_cb) :=
  match body with
  | Some b => if decide (c ∈ controls b) then Some handler else None
  | None => None
  end.

(** The handler phase, on the rendered screen [w]. *)
Definition dispatch (s : screen) (w : app_view) (e : event) : option (screen * list app_cb) :=
  let h := s.(s_hooks) in
  match e with
  | ClickRadio v =>
      match radio_buttons_click radio_p s.(s_radio) v with
      | Some (g, cbs) => Some (with_radio g s, cbs)
      | None => None
      end
  | ClickAlertToggle v =>
      if decide (v ∈ Toggle.values) then Some (s, toggle_click (alert_toggle_p h) v) else None
  | ClickPaperToggle v =>
      if decide (v ∈ Toggle.values) then Some (s, toggle_click (paper_toggle_p h) v) else None
  | ClickAlert c =>
      option_map (pair s) (body_click w.(w_alert).(v_body) ab_controls c (alert_click (alert_p h) c))
  | ClickPaper c =>
      option_map (pair s) (body_click w.(w_paper).(v_body) pb_controls c (paper_click (paper_p h) c))
  | AlertExited =>
      if negb h.(openAlert) && negb s.(s_alert).(pp_exited)
      then Some (with_alert (popper_exit_end s.(s_alert)) s, []) else None
  | PaperExited =>
      if negb h.(open) && negb s.(s_paper).(pp_exited)
      then Some (with_paper (popper_exit_end s.(s_paper)) s, []) else None
  end.

(** The commit phase. *)
Definition run_cbs (cbs : list app_cb) (h : hooks) : hooks :=
  fold_left (fun h c => run_cb c h) cbs h.

Definition commit (s : screen) (cbs : list app_cb) : screen :=
  let h := run_cbs cbs s.(s_hooks) in
  {| s_hooks := h;
     s_radio := s.(s_radio);
     s_alert := popper_sync h.(openAlert) s.(s_alert);
     s_paper := popper_sync h.(open) s.(s_paper) |}.

(** One user event, with the callbacks it invokes. *)
Definition step_cbs (s : screen) (e : event) : option (screen * list app_cb) :=
  match App s with
  | Some w =>
      match dispatch s w e with
      | Some (s', cbs) => Some (commit s' cbs, cbs)
      | None => None
      end
  | None => None
  end.

Definition step (s : screen) (e : event) : option screen := option_map fst (step_cbs s e).

Definition app_step (s s' : screen) : Prop := exists e, step s e = Some s'.

Definition reachable (s : screen) : Prop := rtc app_step screen_init s.

(** ** Lemmas on the step *)

Lemma step_cbs_inv s e s' cbs :
  step_cbs s e = Some (s', cbs) ->
  exists w s0, App s = Some w /\ dispatch s w e = Some (s0, cbs) /\ s' = commit s0 cbs.
Proof.
  unfold step_cbs. destruct (App s) as [w|]; [|done].
  destruct (dispatch s w e) as [[s0 cbs0]|] eqn:D; [|done].
  intros [= <- <-]. eauto.
Qed.

Lemma step_step_cbs s e s' : step s e = Some s' -> exists cbs, step_cbs s e = Some (s', cbs).
Proof.
  unfold step. destruct (step_cbs s e) as [[s0 cbs]|]; simpl; [|done].
  intros [= <-]. eauto.
Qed.

(** The callbacks that leave [selectedIcon] alone. *)
Definition keeps_icon (c : app_cb) : bool :=
  match c with HandleChange _ => false | _ => true end.

Lemma run_cbs_app cbs1 cbs2 h : run_cbs (cbs1 ++ cbs2) h = run_cbs cbs2 (run_cbs cbs1 h).
Proof. apply fold_left_app. Qed.

Lemma run_cbs_selectedIcon cbs h :
  forallb keeps_icon cbs = true -> (run_cbs cbs h).(selectedIcon) = h.(selectedIcon).
Proof.
  revert h. induction cbs as [|c cbs IH]; intros h; simpl; [done|].
  intros [Hc Hcbs]%andb_prop. rewrite IH by done. by destruct c.
Qed.

Lemma toggle_click_cbs (tp : toggle_props app_cb) f v :
  tp.(tp_onChange) = Some f -> toggle_click tp v = [f (toggle_new_value tp.(tp_defaultValue) v)].
Proof. unfold toggle_click, handleChange. by intros ->. Qed.

Lemma body_click_Some {B} (body : option B) ctl c handler cbs :
  body_click body ctl c handler = Some cbs ->
  cbs = handler /\ exists b, body = Some b /\ c ∈ ctl b.
Proof. unfold body_click. destruct body as [b|]; [case_decide|]; naive_solver. Qed.

Lemma click_dispatch_Some {B} (s : screen) (body : option B) ctl c (handler : list app_cb) s0 cbs :
  option_map (pair s) (body_click body ctl c handler) = Some (s0, cbs) ->
  s0 = s /\ cbs = handler /\ exists b, body = Some b /\ c ∈ ctl b.
Proof.
  destruct (body_click body ctl c handler) as [cbs'|] eqn:E; simpl; [|done].
  intros [= <- <-]. apply body_click_Some in E as [-> ?]. auto.
Qed.

Lemma dispatch_radio s w v s0 cbs :
  dispatch s w (ClickRadio v) = Some (s0, cbs) ->
  v ∈ object_keys Icons /\ s0.(s_hooks) = s.(s_hooks) /\
  s0.(s_radio).(rg_value) = Some v /\ s0.(s_alert) = s.(s_alert) /\ s0.(s_paper) = s.(s_paper) /\
  ((cbs = [] /\ s.(s_radio).(rg_value) = Some v) \/ cbs = [HandleChange v]).
Proof.
  unfold dispatch, radio_buttons_click, radio_click; simpl.
  case_decide; [|done]. case_decide; intros; simplify_eq; simpl; naive_solver.
Qed.

Lemma dispatch_other s w e s0 cbs :
  (forall v, e <> ClickRadio v) -> dispatch s w e = Some (s0, cbs) ->
  s0.(s_hooks) = s.(s_hooks) /\ s0.(s_radio) = s.(s_radio) /\ forallb keeps_icon cbs = true.
Proof.
  intros Hne. destruct e as [v|v|v|c|c| |]; simpl.
  - by destruct (Hne v).
  - case_decide; [|done]. intros; simplify_eq. by rewrite (toggle_click_cbs _ OnAlertToggle).
  - case_decide; [|done]. intros; simplify_eq. by rewrite (toggle_click_cbs _ OnPaperToggle).
  - intros (-> & -> & _)%click_dispatch_Some. split; [done|]. split; [done|]. by destruct c.
  - intros (-> & -> & _)%click_dispatch_Some. split; [done|]. split; [done|]. by destruct c.
  - destruct (_ && _); [|done]. by intros [= <- <-].
  - destruct (_ && _); [|done]. by intros [= <- <-].
Qed.

(** ** The screen invariant *)

(** The radio group shows the selected icon, the selected icon is a key of
    [Icons] (the cast of line 281 is never wrong), and an open widget's
    popper has left its [exited] state. *)
Definition screen_inv (s : screen) : Prop :=
  s.(s_radio).(rg_value) = Some s.(s_hooks).(selectedIcon) /\
  is_icon_key s.(s_hooks).(selectedIcon) = true /\
  (s.(s_hooks).(openAlert) = true -> s.(s_alert).(pp_exited) = false) /\
  (s.(s_hooks).(open) = true -> s.(s_paper).(pp_exited) = false).

Lemma popper_sync_open b p : b = true -> (popper_sync b p).(pp_exited) = false.
Proof. by intros ->. Qed.

Lemma screen_inv_commit s cbs :
  s.(s_radio).(rg_value) = Some (run_cbs cbs s.(s_hooks)).(selectedIcon) ->
  is_icon_key (run_cbs cbs s.(s_hooks)).(selectedIcon) = true ->
  screen_inv (commit s cbs).
Proof. intros Hr Hk. repeat split; simpl; auto using popper_sync_open. Qed.

Lemma screen_inv_step s e s' : screen_inv s -> step s e = Some s' -> screen_inv s'.
Proof.
  intros (Hr & Hk & _) (cbs & (w & s0 & _ & D & ->)%step_cbs_inv)%step_step_cbs.
  destruct e as [v| | | | | |];
    [|apply dispatch_other in D as (Hh & Hr0 & Hcbs); [|done];
      apply screen_inv_commit; rewrite run_cbs_selectedIcon, Hh, ?Hr0; done..].
  apply dispatch_radio in D as (Hv & Hh & Hr0 & _ & _ & [[-> Hsv] | ->]);
    apply screen_inv_commit; rewrite ?Hh, ?Hr0; simpl; try done.
  + rewrite Hr in Hsv. congruence.
  + by apply is_icon_key_elem.
Qed.

Lemma screen_inv_init : screen_inv screen_init.
Proof. repeat split; simpl; done. Qed.

Lemma screen_inv_rtc s s' : rtc app_step s s' -> screen_inv s -> screen_inv s'.
Proof.
  induction 1 as [|x y z [e Hxy] _ IH]; [done|].
  intros Hx. apply IH. by eapply screen_inv_step.
Qed.

Lemma reachable_screen_inv s : reachable s -> screen_inv s.
Proof. intros H. eapply screen_inv_rtc; [exact H | apply screen_inv_init]. Qed.

Lemma App_Some s : screen_inv s -> exists w, App s = Some w.
Proof.
  intros (_ & Hk & _). unfold App.
  destruct (widgets_render_on_key (alert_p s.(s_hooks)) s.(s_alert) s.(s_alert) Hk) as [[a ->] _].
  destruct (widgets_render_on_key (paper_p s.(s_hooks)) s.(s_paper) s.(s_paper) Hk) as [_ [q ->]].
  eauto.
Qed.

Lemma App_views s w :
  App s = Some w ->
  AlertFloatingBottom (alert_p s.(s_hooks)) s.(s_alert) = Some w.(w_alert) /\
  PaperFloatingBottom (paper_p s.(s_hooks)) s.(s_paper) = Some w.(w_paper).
Proof.
  unfold App. destruct (AlertFloatingBottom _ _), (PaperFloatingBottom _ _); intros; simplify_eq; done.
Qed.

(** The step of a click on a rendered control of the Alert or the Paper. *)
Lemma step_cbs_click_alert s c s' cbs :
  step_cbs s (ClickAlert c) = Some (s', cbs) ->
  cbs = alert_click (alert_p s.(s_hooks)) c /\ s' = commit s cbs /\
  exists w b, App s = Some w /\ w.(w_alert).(v_body) = Some b /\ c ∈ b.(ab_controls).
Proof.
  intros (w & s0 & Hw & D & ->)%step_cbs_inv. simpl in D.
  apply click_dispatch_Some in D as (-> & -> & b & Hb & Hc). eauto 10.
Qed.

Lemma step_cbs_click_paper s c s' cbs :
  step_cbs s (ClickPaper c) = Some (s', cbs) ->
  cbs = paper_click (paper_p s.(s_hooks)) c /\ s' = commit s cbs /\
  exists w b, App s = Some w /\ w.(w_paper).(v_body) = Some b /\ c ∈ b.(pb_controls).
Proof.
  intros (w & s0 & Hw & D & ->)%step_cbs_inv. simpl in D.
  apply click_dispatch_Some in D as (-> & -> & b & Hb & Hc). eauto 10.
Qed.

Lemma step_cbs_toggle_alert s v s' cbs :
  step_cbs s (ClickAlertToggle v) = Some (s', cbs) ->
  v ∈ Toggle.values /\
  cbs = [OnAlertToggle (toggle_new_value (Some (open_label s.(s_hooks).(openAlert))) v)] /\
  s' = commit s cbs.
Proof.
  intros (w & s0 & Hw & D & ->)%step_cbs_inv. simpl in D.
  case_decide; [|done]. simplify_eq. by rewrite (toggle_click_cbs _ OnAlertToggle).
Qed.

Lemma step_cbs_toggle_paper s v s' cbs :
  step_cbs s (ClickPaperToggle v) = Some (s', cbs) ->
  v ∈ Toggle.values /\
  cbs = [OnPaperToggle (toggle_new_value (Some (open_label s.(s_hooks).(open))) v)] /\
  s' = commit s cbs.
Proof.
  intros (w & s0 & Hw & D & ->)%step_cbs_inv. simpl in D.
  case_decide; [|done]. simplify_eq. by rewrite (toggle_click_cbs _ OnPaperToggle).
Qed.

(** ** The radio group, exits and callbacks *)

Lemma step_cbs_exit s e s' cbs :
  e = AlertExited \/ e = PaperExited -> step_cbs s e = Some (s', cbs) ->
  cbs = [] /\ s'.(s_hooks) = s.(s_hooks) /\
  (e = AlertExited -> s.(s_hooks).(openAlert) = false /\ s.(s_alert).(pp_exited) = false /\
     s'.(s_alert).(pp_exited) = true /\ s'.(s_paper) = popper_sync s.(s_hooks).(open) s.(s_paper)) /\
  (e = PaperExited -> s.(s_hooks).(open) = false /\ s.(s_paper).(pp_exited) = false /\
     s'.(s_paper).(pp_exited) = true /\ s'.(s_alert) = popper_sync s.(s_hooks).(openAlert) s.(s_alert)).
Proof.
  intros He (w & s0 & _ & D & ->)%step_cbs_inv.
  destruct He as [-> | ->]; simpl in D.
  - destruct (openAlert (s_hooks s)) eqn:Ho, (pp_exited (s_alert s)) eqn:Hx; simpl in D; try done.
    injection D as <- <-. simpl. rewrite Ho. repeat split; done.
  - destruct (open (s_hooks s)) eqn:Ho, (pp_exited (s_paper s)) eqn:Hx; simpl in D; try done.
    injection D as <- <-. simpl. rewrite Ho. repeat split; done.
Qed.

(** Every event invokes no callback or one. *)
Lemma step_cbs_single s e s' cbs :
  step_cbs s e = Some (s', cbs) -> cbs = [] \/ exists c, cbs = [c].
Proof.
  destruct e as [v|v|v|c|c| |].
  - intros (w & s0 & _ & D & _)%step_cbs_inv.
    apply dispatch_radio in D as (_ & _ & _ & _ & _ & [[-> _] | ->]); eauto.
  - intros (_ & -> & _)%step_cbs_toggle_alert. eauto.
  - intros (_ & -> & _)%step_cbs_toggle_paper. eauto.
  - intros (-> & _)%step_cbs_click_alert. destruct c; simpl; eauto.
  - intros (-> & _)%step_cbs_click_paper. destruct c; simpl; eauto.
  - intros (-> & _)%step_cbs_exit; [by left | by left].
  - intros (-> & _)%step_cbs_exit; [by left | by right].
Qed.

(** The hooks after an event are the callbacks it invokes, run in order
    on the hooks before it. *)
Lemma step_cbs_hooks s e s' cbs :
  step_cbs s e = Some (s', cbs) -> s'.(s_hooks) = run_cbs cbs s.(s_hooks).
Proof.
  intros (w & s0 & _ & D & ->)%step_cbs_inv. simpl. f_equal.
  destruct e as [v| | | | | |];
    [by apply dispatch_radio in D as (_ & -> & _)
    |by apply dispatch_other in D as (-> & _); [|done]..].
Qed.

(** ** Properties *)

(** C1: Dismissing the Alert through its close button invokes the Alert's
    [onClose] exactly once, and that closure is [() => setOpen(false)]: it
    closes the Paper widget and leaves [openAlert], hence the Alert itself,
    and the selected icon as they were. *)
Theorem alert_close_keeps_alert_open s s' cbs :
  step_cbs s (ClickAlert AlertCloseButton) = Some (s', cbs) ->
  cbs = [AlertOnClose] /\ s'.(s_hooks).(openAlert) = s.(s_hooks).(openAlert) /\
  s'.(s_hooks).(open) = false /\ s'.(s_hooks).(selectedIcon) = s.(s_hooks).(selectedIcon).
Proof. intros (-> & -> & _)%step_cbs_click_alert. by repeat split. Qed.

(** C2: In every reachable screen the radio group shows the selected icon,
    the selected icon is a key of [Icons], and each widget whose [open]
    flag is set has a popper that has entered (is not [exited]). *)
Theorem reachable_invariant s : reachable s -> screen_inv s.
Proof. intros H. eapply screen_inv_rtc; [exact H | apply screen_inv_init]. Qed.

(** C3: No reachable screen throws while rendering: both widgets always
    find their icon component. *)
Theorem reachable_App_renders s : reachable s -> exists w, App s = Some w.
Proof. intros H. apply App_Some. eapply screen_inv_rtc; [exact H | apply screen_inv_init]. Qed.

(** C4: In every reachable screen the selected icon is a key [k], and both
    widgets show the severity and glyph the design's table gives [k]: the
    backdrops' gradient, the Alert's severity and icon, the Paper's icon
    colour and icon. *)
Theorem reachable_severity_follows_icon s w :
  reachable s -> App s = Some w ->
  exists k, icon_key k = s.(s_hooks).(selectedIcon) /\
    w.(w_alert).(v_backdrop).(bx_background) = backdrop_background (spec_severity k) /\
    w.(w_paper).(v_backdrop).(bx_background) = backdrop_background (spec_severity k) /\
    (forall b, w.(w_alert).(v_body) = Some b ->
       b.(ab_severity) = spec_severity k /\ b.(ab_icon) = spec_glyph k) /\
    (forall b, w.(w_paper).(v_body) = Some b ->
       b.(pb_icon_color) = severity_name (spec_severity k) /\ b.(pb_icon) = spec_glyph k).
Proof.
  intros Hr [Ha Hp]%App_views.
  destruct (screen_inv_rtc _ _ Hr screen_inv_init) as (_ & (k & Hk)%is_icon_key_spec & _).
  apply AlertFloatingBottom_view in Ha as (_ & Ha & _ & _ & Hab).
  apply PaperFloatingBottom_view in Hp as (_ & Hp & _ & _ & Hpb).
  simpl in *. rewrite <- Hk in *. autorewrite with ui in *.
  exists k. rewrite Ha, Hp. do 3 (split; [done|]). split.
  - intros b (-> & Hg & _)%Hab. split; congruence.
  - intros b (-> & Hg & _)%Hpb. split; congruence.
Qed.

(** C7: Clicking "Close" on the Alert's toggle closes the Alert whatever
    its state, for any exclusive toggle group: the group passes [null] or
    ["Close"], and neither lower-cases to ["open"].  The Paper's flag and
    the selected icon are untouched. *)
Theorem alert_toggle_close_closes s s' cbs :
  step_cbs s (ClickAlertToggle "Close") = Some (s', cbs) ->
  s'.(s_hooks).(openAlert) = false /\ s'.(s_hooks).(open) = s.(s_hooks).(open) /\
  s'.(s_hooks).(selectedIcon) = s.(s_hooks).(selectedIcon).
Proof.
  intros (_ & -> & ->)%step_cbs_toggle_alert. simpl.
  destruct (toggle_new_value_cases (Some (open_label s.(s_hooks).(openAlert))) "Close") as [-> | ->];
    by repeat split.
Qed.

(** C10: Toggling a widget's open flag invokes no widget callback: the
    only callback a toggle click runs is that toggle's [onChange], so the
    Alert's and the Paper's [onClose] do not run, and the other widget's
    flag and the selected icon are unchanged. *)
Theorem toggles_invoke_no_widget_callback s v s' cbs :
  (step_cbs s (ClickAlertToggle v) = Some (s', cbs) ->
     (AlertOnClose ∉ cbs) /\ (PaperOnClose ∉ cbs) /\
     s'.(s_hooks).(open) = s.(s_hooks).(open) /\
     s'.(s_hooks).(selectedIcon) = s.(s_hooks).(selectedIcon)) /\
  (step_cbs s (ClickPaperToggle v) = Some (s', cbs) ->
     (AlertOnClose ∉ cbs) /\ (PaperOnClose ∉ cbs) /\
     s'.(s_hooks).(openAlert) = s.(s_hooks).(openAlert) /\
     s'.(s_hooks).(selectedIcon) = s.(s_hooks).(selectedIcon)).
Proof.
  split; [intros (_ & -> & ->)%step_cbs_toggle_alert | intros (_ & -> & ->)%step_cbs_toggle_paper];
    simpl; repeat split; by intros ?%list_elem_of_singleton.
Qed.

(** C11: The Paper's OK button does nothing in [App]: [App] passes no
    [onOk], so [onOk?.()] invokes no callback and the state hooks are
    unchanged. *)
Theorem paper_ok_does_nothing s s' cbs :
  step_cbs s (ClickPaper OkButton) = Some (s', cbs) -> cbs = [] /\ s'.(s_hooks) = s.(s_hooks).
Proof. intros (-> & -> & _)%step_cbs_click_paper. done. Qed.

(** C12: Any other control of the Paper is its close icon (the Cancel
    button is not drawn since [App] passes [onClose]); clicking it invokes
    the Paper's [onClose] exactly once, which closes the Paper and leaves
    the Alert's flag unchanged. *)
Theorem paper_close_closes_paper s c s' cbs :
  step_cbs s (ClickPaper c) = Some (s', cbs) -> c <> OkButton ->
  c = CloseIconButton /\ cbs = [PaperOnClose] /\
  s'.(s_hooks).(open) = false /\ s'.(s_hooks).(openAlert) = s.(s_hooks).(openAlert).
Proof.
  intros (-> & -> & w & b & Hw & Hb & Hc)%step_cbs_click_paper Hok.
  apply App_views in Hw as [_ Hp].
  apply PaperFloatingBottom_view in Hp as (_ & _ & _ & _ & Hpb).
  destruct (Hpb b Hb) as (_ & _ & Hctl). rewrite Hctl in Hc. simpl in Hc.
  apply elem_of_cons in Hc as [-> | ->%list_elem_of_singleton]; [done|]. by repeat split.
Qed.

(** C13: Once the Alert is closed, at most one event, the end of its
    exit transition, makes it disappear: from every reachable screen with
    [openAlert] false there is a screen, the same one or the one after
    [AlertExited], with the same hooks, in which the Alert renders no body. *)
Theorem alert_exit_hides_alert s :
  reachable s -> s.(s_hooks).(openAlert) = false ->
  exists s', (s' = s \/ step s AlertExited = Some s') /\ s'.(s_hooks) = s.(s_hooks) /\
    forall w, App s' = Some w -> w.(w_alert).(v_body) = None.
Proof.
  intros Hr Hoa. pose proof (screen_inv_rtc _ _ Hr screen_inv_init) as Hinv.
  destruct (pp_exited s.(s_alert)) eqn:Hex.
  - exists s. split; [by left|]. split; [done|]. intros w [Ha _]%App_views.
    apply AlertFloatingBottom_view in Ha as (_ & _ & _ & Hbody & _).
    apply Hbody. unfold popper_rendered. simpl. by rewrite Hoa, Hex.
  - destruct (App_Some s Hinv) as [w Hw].
    eexists. split.
    { right. unfold step, step_cbs. rewrite Hw. simpl. rewrite Hoa, Hex. reflexivity. }
    simpl. split; [done|]. intros w' [Ha _]%App_views.
    apply AlertFloatingBottom_view in Ha as (_ & _ & _ & Hbody & _).
    apply Hbody. unfold popper_rendered. simpl. by rewrite Hoa.
Qed.

(** C14: A closed Alert whose exit transition has ended offers no control:
    no click on it is enabled, so none of its callbacks can fire. *)
Theorem closed_alert_offers_no_control s c :
  s.(s_hooks).(openAlert) = false -> s.(s_alert).(pp_exited) = true ->
  step_cbs s (ClickAlert c) = None.
Proof.
  intros Hoa Hex. destruct (step_cbs s (ClickAlert c)) as [[s' cbs]|] eqn:E; [|done].
  apply step_cbs_click_alert in E as (_ & _ & w & b & Hw & Hb & _).
  apply App_views in Hw as [Ha _].
  apply AlertFloatingBottom_view in Ha as (_ & _ & _ & Hbody & _).
  rewrite (proj2 Hbody) in Hb; [done|]. unfold popper_rendered. simpl. by rewrite Hoa, Hex.
Qed.

(** C15: A click on a radio is enabled only for a key of [Icons]; it
    selects that key, the radio group shows it, and at most one callback
    ([handleChange]) runs. *)
Theorem select_icon_sets_icon s v s' cbs :
  reachable s -> step_cbs s (ClickRadio v) = Some (s', cbs) ->
  is_icon_key v = true /\ s'.(s_hooks).(selectedIcon) = v /\
  s'.(s_radio).(rg_value) = Some v /\ length cbs <= 1.
Proof.
  intros Hr (w & s0 & _ & D & ->)%step_cbs_inv.
  destruct (screen_inv_rtc _ _ Hr screen_inv_init) as (Hrv & _).
  apply dispatch_radio in D as (Hv%is_icon_key_elem & Hh & Hr0 & _ & _ & [[-> Hsv] | ->]);
    simpl; rewrite ?Hh; repeat split; auto; congruence.
Qed.

(** C16: The design's scenario "icon error, open": in a reachable screen
    with [selectedIcon = "error"] and [openAlert] set, the Alert's popper is
    open and renders a body of severity [error], and dismissing it is
    enabled and invokes [onClose] exactly once. *)
Theorem scenario_error_alert s :
  reachable s -> s.(s_hooks).(selectedIcon) = "error" -> s.(s_hooks).(openAlert) = true ->
  exists w b, App s = Some w /\ w.(w_alert).(v_popper_open) = true /\
    w.(w_alert).(v_body) = Some b /\ b.(ab_severity) = error /\
    step_cbs s (ClickAlert AlertCloseButton) = Some (commit s [AlertOnClose], [AlertOnClose]).
Proof.
  intros Hr Hi Ho.
  destruct (App_Some s (screen_inv_rtc _ _ Hr screen_inv_init)) as [w Hw].
  pose proof (App_views _ _ Hw) as [Ha _].
  apply AlertFloatingBottom_view in Ha as (_ & _ & Hpo & Hbody & Hb).
  destruct (v_body (w_alert w)) as [b|] eqn:Eb;
    [|pose proof (proj1 Hbody eq_refl) as Hf; unfold popper_rendered in Hf; simpl in Hf;
      by rewrite Ho in Hf].
  destruct (Hb b eq_refl) as (Hsev & _ & Hctl).
  exists w, b. simpl in Hpo, Hsev. rewrite Hi in Hsev.
  split; [done|]. split; [congruence|]. split; [done|]. split; [done|].
  unfold step_cbs. rewrite Hw. simpl. unfold body_click. rewrite Eb, Hctl.
  rewrite decide_True by apply list_elem_of_here. done.
Qed.

(** C22: In every reachable screen the radio group draws exactly one
    radio with [BpCheckedIcon], the radio of the selected icon; every other
    radio draws [BpIcon]. *)
Theorem reachable_radio_checked_is_selected s v ico :
  reachable s -> In (v, ico) (RadioButtons_view radio_p s.(s_radio)) ->
  ico = Some (PElem (if decide (v = s.(s_hooks).(selectedIcon)) then "BpCheckedIcon" else "BpIcon")).
Proof.
  intros Hr Hin. destruct (screen_inv_rtc _ _ Hr screen_inv_init) as (Hrv & _).
  unfold RadioButtons_view in Hin. rewrite Hrv in Hin.
  apply in_map_iff in Hin as (x & [= <- <-] & _).
  destruct (decide (x = selectedIcon (s_hooks s))) as [-> | Hne].
  - by rewrite bool_decide_eq_true_2.
  - rewrite bool_decide_eq_false_2 by congruence. reflexivity.
Qed.

(** C23: Every event invokes at most one callback: no handler of the
    screen calls two of [App]'s closures. *)
Theorem step_invokes_at_most_one_callback s e s' cbs :
  step_cbs s e = Some (s', cbs) -> length cbs <= 1.
Proof. intros [-> | [c ->]]%step_cbs_single; simpl; lia. Qed.

(** C24: The cast [event.currentTarget.value as keyof typeof Icons] of
    line 281 is sound: every callback a radio click invokes is
    [handleChange] with the string of an icon kind. *)
Theorem radio_cast_sound s v s' cbs :
  step_cbs s (ClickRadio v) = Some (s', cbs) ->
  Forall (fun c => exists k : IconKind, c = HandleChange (icon_key k)) cbs.
Proof.
  intros (w & s0 & _ & D & _)%step_cbs_inv.
  apply dispatch_radio in D as ((k & Hk)%is_icon_key_elem%is_icon_key_spec & _ & _ & _ & _ & [[-> _] | ->]).
  - constructor.
  - constructor; [exists k; by rewrite Hk | constructor].
Qed.

(** C25: Once the Paper is closed, at most one event, the end of its exit
    transition, makes it disappear. *)
Theorem paper_exit_hides_paper s :
  reachable s -> s.(s_hooks).(open) = false ->
  exists s', (s' = s \/ step s PaperExited = Some s') /\ s'.(s_hooks) = s.(s_hooks) /\
    forall w, App s' = Some w -> w.(w_paper).(v_body) = None.
Proof.
  intros Hr Ho. pose proof (screen_inv_rtc _ _ Hr screen_inv_init) as Hinv.
  assert (Hbody : forall s0 w, s0.(s_hooks).(open) = false -> s0.(s_paper).(pp_exited) = true ->
            App s0 = Some w -> w.(w_paper).(v_body) = None).
  { intros s0 w Ho0 Hx0 [_ Hp]%App_views.
    apply PaperFloatingBottom_view in Hp as (_ & _ & _ & Hb & _).
    apply Hb. unfold popper_rendered. simpl. by rewrite Ho0, Hx0. }
  destruct (pp_exited s.(s_paper)) eqn:Hex.
  - exists s. split; [by left|]. split; [done|]. intros w. by apply Hbody.
  - destruct (App_Some s Hinv) as [w Hw].
    assert (E : step_cbs s PaperExited = Some (commit (with_paper (popper_exit_end s.(s_paper)) s) [], [])).
    { unfold step_cbs. rewrite Hw. simpl. by rewrite Ho, Hex. }
    eexists. split; [right; unfold step; by rewrite E|].
    split; [done|]. intros w'. apply Hbody; simpl; [done|]. by rewrite Ho.
Qed.

End Screen.

(** ** With MUI's toggle group and palette *)

(** A reachable screen, step by step. *)
Ltac reach e := eapply rtc_l; [exists e; reflexivity|].

(** The screen after selecting "error" and opening the Alert. *)
Definition demo_error_open : screen := {|
  s_hooks := {| open := false; openAlert := true; selectedIcon := "error" |};
  s_radio := {| rg_value := Some "error" |};
  s_alert := {| pp_exited := false |};
  s_paper := popper_init
|}.

(** The screen after opening the Paper. *)
Definition demo_paper_open : screen := {|
  s_hooks := {| open := true; openAlert := false; selectedIcon := "info" |};
  s_radio := {| rg_value := Some "info" |};
  s_alert := popper_init;
  s_paper := {| pp_exited := false |}
|}.

(** The screen after closing the Alert of [demo_error_open] with its
    toggle: the exit transition has not ended. *)
Definition demo_alert_exiting : screen := {|
  s_hooks := {| open := false; openAlert := false; selectedIcon := "error" |};
  s_radio := {| rg_value := Some "error" |};
  s_alert := {| pp_exited := false |};
  s_paper := popper_init
|}.

Lemma demo_error_open_reachable : reachable demo_error_open.
Proof. reach (ClickRadio "error"). reach (ClickAlertToggle "Open"). reflexivity. Qed.

Lemma demo_alert_exiting_reachable : reachable demo_alert_exiting.
Proof.
  reach (ClickRadio "error"). reach (ClickAlertToggle "Open"). reach (ClickAlertToggle "Close").
  reflexivity.
Qed.

(** C6: With MUI's exclusive group, clicking "Open" on the Alert's toggle
    flips the Alert: it opens a closed Alert, but on an open one the group
    passes [null] (the button is already selected), the callback computes
    [undefined === "open"], and the Alert closes. *)
Theorem alert_toggle_open_flips s s' cbs :
  step_cbs s (ClickAlertToggle "Open") = Some (s', cbs) ->
  s'.(s_hooks).(openAlert) = negb s.(s_hooks).(openAlert) /\
  cbs = [OnAlertToggle (if s.(s_hooks).(openAlert) then None else Some "Open")] /\
  s'.(s_hooks).(open) = s.(s_hooks).(open) /\
  s'.(s_hooks).(selectedIcon) = s.(s_hooks).(selectedIcon).
Proof.
  intros (_ & -> & ->)%step_cbs_toggle_alert.
  assert (toggle_new_value (Some (open_label s.(s_hooks).(openAlert))) "Open" =
          if s.(s_hooks).(openAlert) then None else Some "Open") as ->
    by (destruct (openAlert (s_hooks s)); reflexivity).
  destruct (openAlert (s_hooks s)); by repeat split.
Qed.

(** C8: The toggles' callback [value?.toLowerCase() === "open"] accepts
    exactly the sixteen spellings of "open" in any letter case, and
    nothing else (no other string lower-cases to "open"). *)
Theorem is_open_value_spellings (v : string) :
  is_open_value (Some v) = true <-> In v (JsString.case_variants "open").
Proof.
  unfold is_open_value, JsString.optional_toLowerCase, JsString.optional_strict_eq, JsString.strict_eq.
  rewrite string_eqb_true_iff.
  split; [apply JsString.case_variants_complete|].
  assert (Hall : forallb (fun t => String.eqb (JsString.toLowerCase t) "open")
                   (JsString.case_variants "open") = true) by (vm_compute; reflexivity).
  intros Hin. rewrite forallb_forall in Hall. by apply string_eqb_true_iff, Hall.
Qed.

(** ** Witnesses *)

Lemma alert_close_keeps_alert_open_witness :
  exists s' cbs, step_cbs demo_error_open (ClickAlert AlertCloseButton) = Some (s', cbs) /\
    (cbs = [AlertOnClose] /\ s'.(s_hooks).(openAlert) = true /\ s'.(s_hooks).(open) = false /\
     s'.(s_hooks).(selectedIcon) = "error").
Proof.
  eexists _, _. split; [reflexivity|].
  apply (alert_close_keeps_alert_open demo_error_open). reflexivity.
Defined.

Lemma reachable_invariant_witness : reachable demo_error_open /\ screen_inv demo_error_open.
Proof.
  split; [apply demo_error_open_reachable|].
  apply reachable_invariant, demo_error_open_reachable.
Defined.

Lemma reachable_App_renders_witness :
  reachable demo_error_open /\ exists w, App demo_error_open = Some w.
Proof.
  split; [apply demo_error_open_reachable|].
  apply reachable_App_renders, demo_error_open_reachable.
Defined.

Lemma reachable_severity_follows_icon_witness :
  exists w, App demo_error_open = Some w /\
    exists k, icon_key k = "error" /\
      w.(w_alert).(v_backdrop).(bx_background) = backdrop_background (spec_severity k) /\
      w.(w_paper).(v_backdrop).(bx_background) = backdrop_background (spec_severity k) /\
      (forall b, w.(w_alert).(v_body) = Some b ->
         b.(ab_severity) = spec_severity k /\ b.(ab_icon) = spec_glyph k) /\
      (forall b, w.(w_paper).(v_body) = Some b ->
         b.(pb_icon_color) = severity_name (spec_severity k) /\ b.(pb_icon) = spec_glyph k).
Proof.
  eexists. split; [reflexivity|].
  apply (reachable_severity_follows_icon demo_error_open); [apply demo_error_open_reachable | reflexivity].
Defined.

Lemma alert_toggle_open_flips_witness :
  exists s' cbs, step_cbs demo_error_open (ClickAlertToggle "Open") = Some (s', cbs) /\
    (s'.(s_hooks).(openAlert) = false /\ cbs = [OnAlertToggle None] /\
     s'.(s_hooks).(open) = false /\ s'.(s_hooks).(selectedIcon) = "error").
Proof.
  eexists _, _. split; [reflexivity|].
  apply (alert_toggle_open_flips demo_error_open). reflexivity.
Defined.

Lemma alert_toggle_close_closes_witness :
  exists s' cbs, step_cbs demo_error_open (ClickAlertToggle "Close") = Some (s', cbs) /\
    (s'.(s_hooks).(openAlert) = false /\ s'.(s_hooks).(open) = false /\
     s'.(s_hooks).(selectedIcon) = "error").
Proof.
  eexists _, _. split; [reflexivity|].
  eapply (alert_toggle_close_closes demo_error_open). reflexivity.
Defined.

Lemma toggles_invoke_no_widget_callback_witness :
  exists s' cbs, step_cbs demo_error_open (ClickAlertToggle "Open") = Some (s', cbs) /\
    ((AlertOnClose ∉ cbs) /\ (PaperOnClose ∉ cbs) /\
     s'.(s_hooks).(open) = false /\ s'.(s_hooks).(selectedIcon) = "error").
Proof.
  eexists _, _. split; [reflexivity|].
  eapply (toggles_invoke_no_widget_callback demo_error_open "Open"). reflexivity.
Defined.

Lemma paper_ok_does_nothing_witness :
  exists s' cbs, step_cbs demo_paper_open (ClickPaper OkButton) = Some (s', cbs) /\
    (cbs = [] /\ s'.(s_hooks) = demo_paper_open.(s_hooks)).
Proof.
  eexists _, _. split; [reflexivity|].
  apply (paper_ok_does_nothing demo_paper_open). reflexivity.
Defined.

Lemma paper_close_closes_paper_witness :
  exists s' cbs, step_cbs demo_paper_open (ClickPaper CloseIconButton) = Some (s', cbs) /\
    (CloseIconButton = CloseIconButton /\ cbs = [PaperOnClose] /\
     s'.(s_hooks).(open) = false /\ s'.(s_hooks).(openAlert) = false).
Proof.
  eexists _, _. split; [reflexivity|].
  apply (paper_close_closes_paper demo_paper_open CloseIconButton); [reflexivity | discriminate].
Defined.

Lemma alert_exit_hides_alert_witness :
  exists s', (s' = demo_alert_exiting \/ step demo_alert_exiting AlertExited = Some s') /\
    s'.(s_hooks) = demo_alert_exiting.(s_hooks) /\
    forall w, App s' = Some w -> w.(w_alert).(v_body) = None.
Proof.
  apply alert_exit_hides_alert; [apply demo_alert_exiting_reachable | reflexivity].
Defined.

Lemma closed_alert_offers_no_control_witness :
  step_cbs screen_init (ClickAlert AlertCloseButton) = None.
Proof. apply closed_alert_offers_no_control; reflexivity. Defined.

Lemma select_icon_sets_icon_witness :
  exists s' cbs, step_cbs screen_init (ClickRadio "done") = Some (s', cbs) /\
    (is_icon_key "done" = true /\ s'.(s_hooks).(selectedIcon) = "done" /\
     s'.(s_radio).(rg_value) = Some "done" /\ length cbs <= 1).
Proof.
  eexists _, _. split; [reflexivity|].
  apply (select_icon_sets_icon screen_init); [apply rtc_refl | reflexivity].
Defined.

Lemma scenario_error_alert_witness :
  exists w b, App demo_error_open = Some w /\ w.(w_alert).(v_popper_open) = true /\
    w.(w_alert).(v_body) = Some b /\ b.(ab_severity) = error /\
    step_cbs demo_error_open (ClickAlert AlertCloseButton) =
      Some (commit demo_error_open [AlertOnClose], [AlertOnClose]).
Proof.
  apply scenario_error_alert; [apply demo_error_open_reachable | reflexivity | reflexivity].
Defined.

(** The screen after opening and closing the Paper with its toggle. *)
Definition demo_paper_exiting : screen := {|
  s_hooks := {| open := false; openAlert := false; selectedIcon := "info" |};
  s_radio := {| rg_value := Some "info" |};
  s_alert := popper_init;
  s_paper := {| pp_exited := false |}
|}.

Lemma demo_paper_exiting_reachable : reachable demo_paper_exiting.
Proof. reach (ClickPaperToggle "Open"). reach (ClickPaperToggle "Close"). reflexivity. Qed.

Lemma reachable_radio_checked_is_selected_witness :
  reachable demo_error_open /\
  In ("error", Some (PElem "BpCheckedIcon")) (RadioButtons_view radio_p demo_error_open.(s_radio)) /\
  Some (PElem "BpCheckedIcon") =
    Some (PElem (if decide ("error" = demo_error_open.(s_hooks).(selectedIcon))
                 then "BpCheckedIcon" else "BpIcon")).
Proof.
  assert (Hin : In ("error", Some (PElem "BpCheckedIcon"))
                   (RadioButtons_view radio_p demo_error_open.(s_radio)))
    by (vm_compute; repeat first [left; reflexivity | right]).
  split; [apply demo_error_open_reachable|]. split; [exact Hin|].
  exact (reachable_radio_checked_is_selected demo_error_open _ _ demo_error_open_reachable Hin).
Defined.

Lemma step_invokes_at_most_one_callback_witness :
  exists s' cbs, step_cbs demo_error_open (ClickAlert AlertCloseButton) = Some (s', cbs) /\
    length cbs <= 1.
Proof.
  eexists _, _. split; [reflexivity|].
  eapply (step_invokes_at_most_one_callback demo_error_open (ClickAlert AlertCloseButton)).
  reflexivity.
Defined.

Lemma radio_cast_sound_witness :
  exists s' cbs, step_cbs screen_init (ClickRadio "done") = Some (s', cbs) /\
    Forall (fun c => exists k : IconKind, c = HandleChange (icon_key k)) cbs.
Proof.
  eexists _, _. split; [reflexivity|].
  eapply (radio_cast_sound screen_init "done"). reflexivity.
Defined.

Lemma paper_exit_hides_paper_witness :
  exists s', (s' = demo_paper_exiting \/ step demo_paper_exiting PaperExited = Some s') /\
    s'.(s_hooks) = demo_paper_exiting.(s_hooks) /\
    forall w, App s' = Some w -> w.(w_paper).(v_body) = None.
Proof. apply paper_exit_hides_paper; [apply demo_paper_exiting_reachable | reflexivity]. Defined.

End App.
