(* ===== verification/Trace.v ===== *)
(** * Sessions: sequences of user events on the [App] screen

    A session is the list of events a user produces; [run_events] replays it
    with [step_cbs] from a screen and returns the final screen with the
    callbacks each event invoked, or [None] as soon as an event is not
    enabled.  The theorems of this file are statements over whole sessions
    and single events: which events can change which hook, what the
    selected icon is after a session, when a widget's close control can be
    clicked, that each event is the design's action for it (the Alert's
    dismissal excepted), and that events on different controls commute. *)

From S2P Require Import Prelude.
From S2P Require Import JsString Icons Theme Mui Floating Toggle Radio App.
Import Icons Theme Mui Floating Toggle Radio App.

Module Trace.

Section Trace.
Context `{PAL : Palette} `{TG : ExclusiveToggleGroup}.

Fixpoint run_events (s : screen) (es : list event) : option (screen * list (list app_cb)) :=
  match es with
  | [] => Some (s, [])
  | e :: es' =>
      match step_cbs s e with
      | Some (s1, cbs) =>
          match run_events s1 es' with
          | Some (s2, tr) => Some (s2, cbs :: tr)
          | None => None
          end
      | None => None
      end
  end.

(** The events that click the Alert's toggle. *)
Definition is_alert_toggle (e : event) : bool :=
  match e with ClickAlertToggle _ => true | _ => false end.

(** The value of the last radio clicked in a session, [d] when none is. *)
Fixpoint last_radio (es : list event) (d : string) : string :=
  match es with
  | [] => d
  | ClickRadio v :: es' => last_radio es' v
  | _ :: es' => last_radio es' d
  end.

End Trace.

(** ** The design's state machine

    The design (spec, sections 3 and 4.2) keeps an icon kind and one
    visibility flag per widget, owned by the screen and set by user
    actions; every action sets at most one of them. *)

Record abs_state := {
  a_icon : IconKind;
  a_alert : bool;
  a_paper : bool
}.

(** The design's actions (spec, sections 2 to 4.3): choosing an icon,
    the two open/close selectors, and dismissing or confirming a widget. *)
Inductive design_action :=
  | Select (v : string)
  | SetAlert (b : bool)
  | SetPaper (b : bool)
  | DismissAlert
  | DismissPaper
  | Confirm
  | Idle.

Definition design_step (a : abs_state) (x : design_action) : abs_state :=
  match x with
  | Select v =>
      match icon_of_key v with
      | Some k => {| a_icon := k; a_alert := a.(a_alert); a_paper := a.(a_paper) |}
      | None => a
      end
  | SetAlert b => {| a_icon := a.(a_icon); a_alert := b; a_paper := a.(a_paper) |}
  | SetPaper b => {| a_icon := a.(a_icon); a_alert := a.(a_alert); a_paper := b |}
  | DismissAlert => {| a_icon := a.(a_icon); a_alert := false; a_paper := a.(a_paper) |}
  | DismissPaper => {| a_icon := a.(a_icon); a_alert := a.(a_alert); a_paper := false |}
  | Confirm | Idle => a
  end.

(** The selector's boolean: true iff the selection's lower-case form is
    ["open"] (spec, section 4.2). *)
Definition selects_open (u : string) : bool := String.eqb (JsString.toLowerCase u) "open".

(** The design's action for each user event. *)
Definition design_action_of (e : event) : design_action :=
  match e with
  | ClickRadio v => Select v
  | ClickAlertToggle u => SetAlert (selects_open u)
  | ClickPaperToggle u => SetPaper (selects_open u)
  | ClickAlert _ => DismissAlert
  | ClickPaper OkButton => Confirm
  | ClickPaper _ => DismissPaper
  | AlertExited | PaperExited => Idle
  end.

(** A toggle click that changes the selection: the clicked button is not
    the one the group shows (the design's selector has no re-click). *)
Definition fresh_toggle (s : screen) (e : event) : bool :=
  match e with
  | ClickAlertToggle u => negb (String.eqb u (open_label s.(s_hooks).(openAlert)))
  | ClickPaperToggle u => negb (String.eqb u (open_label s.(s_hooks).(open)))
  | _ => true
  end.

Definition is_alert_click (e : event) : bool :=
  match e with ClickAlert _ => true | _ => false end.

Definition abs_init : abs_state := {| a_icon := Info; a_alert := false; a_paper := false |}.

(** The abstraction of a screen: its hooks, with the selected icon read as
    an icon kind ([None] when it is not a key). *)
Definition abs_of (s : screen) : option abs_state :=
  match icon_of_key s.(s_hooks).(selectedIcon) with
  | Some k => Some {| a_icon := k; a_alert := s.(s_hooks).(openAlert); a_paper := s.(s_hooks).(open) |}
  | None => None
  end.

Section Lemmas.
Context `{PAL : Palette} `{TG : ExclusiveToggleGroup}.

(** ** Lemmas on sessions *)

Lemma run_events_cons s e es s2 tr :
  run_events s (e :: es) = Some (s2, tr) ->
  exists s1 cbs tr', step_cbs s e = Some (s1, cbs) /\ run_events s1 es = Some (s2, tr') /\
    tr = cbs :: tr'.
Proof.
  cbn [run_events]. destruct (step_cbs s e) as [[s1 cbs]|] eqn:E; [|done].
  destruct (run_events s1 es) as [[s3 tr']|] eqn:R; [|done]. intros [= <- <-]. by exists s1, cbs, tr'.
Qed.

Lemma step_reachable s e s' : reachable s -> step s e = Some s' -> reachable s'.
Proof. intros Hr He. eapply rtc_r; [exact Hr | by exists e]. Qed.

Lemma step_cbs_reachable s e s' cbs :
  reachable s -> step_cbs s e = Some (s', cbs) -> reachable s'.
Proof. intros Hr He. apply (step_reachable s e); [done|]. unfold step. by rewrite He. Qed.

(** A session that does not click [e]'s kind of control: [P] holds of
    every event of it. *)
Lemma run_events_preserve (P : event -> Prop) (Q : screen -> screen -> Prop) :
  (forall s, Q s s) -> (forall s1 s2 s3, Q s1 s2 -> Q s2 s3 -> Q s1 s3) ->
  (forall s e s' cbs, P e -> step_cbs s e = Some (s', cbs) -> Q s s') ->
  forall s es s' tr, Forall P es -> run_events s es = Some (s', tr) -> Q s s'.
Proof.
  intros Hrefl Htrans Hstep s es. revert s. induction es as [|e es IH]; intros s s' tr Hall.
  - by intros [= <- _].
  - apply Forall_cons in Hall as [He Hall].
    intros (s1 & cbs & tr' & Hs & Hr & _)%run_events_cons. eauto.
Qed.

(** ** Enabled clicks *)

Lemma is_Some_body_iff {B} (body : option B) (r : bool) :
  (body = None <-> r = false) -> is_Some body <-> r = true.
Proof.
  destruct body, r; intros [H1 H2]; split; intros H;
    first [done | by eexists | discriminate (H1 eq_refl) | discriminate (H2 eq_refl)
          | by destruct H].
Qed.

Lemma body_click_is_Some {B} (body : option B) ctl c (h : list app_cb) :
  (forall b, body = Some b -> c ∈ ctl b) -> is_Some (body_click body ctl c h) <-> is_Some body.
Proof.
  intros Hc. unfold body_click. destruct body as [b|]; [|split; by intros [x Hx]].
  rewrite decide_True by auto. split; intros _; by eexists.
Qed.

Lemma step_cbs_click_is_Some s w c :
  App s = Some w ->
  (is_Some (step_cbs s (ClickAlert c)) <->
     is_Some (body_click w.(w_alert).(v_body) ab_controls c (alert_click (alert_p s.(s_hooks)) c))) /\
  (is_Some (step_cbs s (ClickPaper c)) <->
     is_Some (body_click w.(w_paper).(v_body) pb_controls c (paper_click (paper_p s.(s_hooks)) c))).
Proof.
  intros Hw. unfold step_cbs. rewrite Hw. simpl.
  split; destruct (body_click _ _ _ _); simpl; split; intros [x Hx]; first [done | by eexists].
Qed.

Lemma step_cbs_selectedIcon s e s' cbs :
  reachable s -> step_cbs s e = Some (s', cbs) ->
  s'.(s_hooks).(selectedIcon) = match e with ClickRadio v => v | _ => s.(s_hooks).(selectedIcon) end.
Proof.
  intros Hr He. pose proof (step_cbs_hooks _ _ _ _ He) as Hh.
  apply step_cbs_inv in He as (w & s0 & _ & D & _).
  destruct (reachable_screen_inv s Hr) as (Hrv & _).
  destruct e as [v| | | | | |];
    [apply dispatch_radio in D as (_ & _ & _ & _ & _ & [[-> Hsv] | ->]); rewrite Hh; simpl; congruence
    |apply dispatch_other in D as (_ & _ & Hk); [|done]; rewrite Hh; by apply run_cbs_selectedIcon..].
Qed.

(** ** Properties *)

(** C26: Only the Alert's toggle changes whether the Alert is open: over
    any session without a click on that toggle the Alert's [openAlert]
    flag keeps its value; in particular the Alert's own close button never
    closes it. *)
Theorem alert_flag_only_by_toggle s es s' tr :
  run_events s es = Some (s', tr) -> Forall (fun e => is_alert_toggle e = false) es ->
  s'.(s_hooks).(openAlert) = s.(s_hooks).(openAlert).
Proof.
  intros Hr Hall. revert s es s' tr Hall Hr.
  apply (run_events_preserve (fun e => is_alert_toggle e = false)
           (fun s s' => s'.(s_hooks).(openAlert) = s.(s_hooks).(openAlert)));
    [done | intros; congruence |].
  intros s0 e s1 cbs Ht He. rewrite (step_cbs_hooks _ _ _ _ He).
  destruct e as [v|v|v|c|c| |]; try discriminate Ht.
  - apply step_cbs_inv in He as (w & s2 & _ & D & _).
    by apply dispatch_radio in D as (_ & _ & _ & _ & _ & [[-> _] | ->]).
  - by apply step_cbs_toggle_paper in He as (_ & -> & _).
  - apply step_cbs_click_alert in He as (-> & _). by destruct c.
  - apply step_cbs_click_paper in He as (-> & _). by destruct c.
  - by apply step_cbs_exit in He as (-> & _); [|left].
  - by apply step_cbs_exit in He as (-> & _); [|right].
Qed.

(** C27: After any session from a reachable screen, the selected icon is
    the value of the last radio clicked, or the one before the session
    when no radio was clicked. *)
Theorem run_selectedIcon s es s' tr :
  reachable s -> run_events s es = Some (s', tr) ->
  s'.(s_hooks).(selectedIcon) = last_radio es s.(s_hooks).(selectedIcon).
Proof.
  revert s tr. induction es as [|e es IH]; intros s tr Hr; [by intros [= <- _]|].
  intros (s1 & cbs & tr' & He & Hrun & _)%run_events_cons.
  rewrite (IH s1 tr' (step_cbs_reachable _ _ _ _ Hr He) Hrun), (step_cbs_selectedIcon _ _ _ _ Hr He).
  by destruct e.
Qed.

(** C28: In a reachable screen, a widget's close control can be clicked
    exactly while its popper renders its body: while the widget is open,
    and also after it is closed, until its exit transition ends.  This
    holds of the Alert's close button and of the Paper's close icon. *)
Theorem close_controls_enabled_iff s :
  reachable s ->
  (is_Some (step_cbs s (ClickAlert AlertCloseButton)) <->
     popper_rendered s.(s_hooks).(openAlert) s.(s_alert) = true) /\
  (is_Some (step_cbs s (ClickPaper CloseIconButton)) <->
     popper_rendered s.(s_hooks).(open) s.(s_paper) = true).
Proof.
  intros Hr. destruct (App_Some s (reachable_screen_inv s Hr)) as [w Hw].
  destruct (step_cbs_click_is_Some s w AlertCloseButton Hw) as [-> _].
  destruct (step_cbs_click_is_Some s w CloseIconButton Hw) as [_ ->].
  destruct (App_views s w Hw) as [(_ & _ & _ & Ha & Hab)%AlertFloatingBottom_view
                                  (_ & _ & _ & Hp & Hpb)%PaperFloatingBottom_view].
  rewrite !body_click_is_Some.
  - split; by apply is_Some_body_iff.
  - intros b (_ & _ & ->)%Hpb. apply elem_of_cons. right. apply list_elem_of_here.
  - intros b (_ & _ & ->)%Hab. apply list_elem_of_here.
Qed.

(** The only control of a rendered Alert is its close button; those of
    the Paper are OK and the close icon. *)
Lemma step_cbs_alert_control s c s' cbs :
  step_cbs s (ClickAlert c) = Some (s', cbs) -> c = AlertCloseButton.
Proof.
  intros (_ & _ & w & b & Hw & Hb & Hc)%step_cbs_click_alert.
  apply App_views in Hw as [Ha _].
  apply AlertFloatingBottom_view in Ha as (_ & _ & _ & _ & Hab).
  destruct (Hab b Hb) as (_ & _ & Hctl). rewrite Hctl in Hc. by apply list_elem_of_singleton in Hc.
Qed.

Lemma step_cbs_paper_control s c s' cbs :
  step_cbs s (ClickPaper c) = Some (s', cbs) -> c = OkButton \/ c = CloseIconButton.
Proof.
  intros (_ & _ & w & b & Hw & Hb & Hc)%step_cbs_click_paper.
  apply App_views in Hw as [_ Hp].
  apply PaperFloatingBottom_view in Hp as (_ & _ & _ & _ & Hpb).
  destruct (Hpb b Hb) as (_ & _ & Hctl). rewrite Hctl in Hc. simpl in Hc.
  apply elem_of_cons in Hc as [-> | ->%list_elem_of_singleton]; auto.
Qed.

(** A fresh click makes the group pass the clicked value. *)
Lemma fresh_toggle_new_value (b : bool) u :
  negb (String.eqb u (open_label b)) = true -> toggle_new_value (Some (open_label b)) u = Some u.
Proof.
  intros Hf. apply toggle_new_value_unselected. intros [= E].
  rewrite E, string_eqb_refl in Hf. discriminate.
Qed.

(** C29: The screen refines the design's state machine, event by event:
    the initial screen is the design's initial state, and every event on
    a reachable screen (a toggle click changing the selection) takes the
    screen's abstraction to the design's step for that event: an icon
    choice sets the icon, each selector sets its own widget's flag to
    whether the selection is "open", OK and the exit transitions change
    nothing, and the Paper's dismissal closes the Paper; except that the
    Alert's dismissal is the design's [DismissPaper], not [DismissAlert]. *)
Theorem screen_refines_design :
  abs_of screen_init = Some abs_init /\
  forall s e s', reachable s -> step s e = Some s' -> fresh_toggle s e = true ->
    exists a, abs_of s = Some a /\
      abs_of s' = Some (design_step a (if is_alert_click e then DismissPaper else design_action_of e)).
Proof.
  split; [reflexivity|]. intros s e s' Hr He Hf. apply step_step_cbs in He as [cbs He].
  pose proof (step_cbs_hooks _ _ _ _ He) as Hh.
  pose proof (step_cbs_selectedIcon _ _ _ _ Hr He) as Hsel.
  destruct (reachable_screen_inv s Hr) as (_ & (k & Hk)%is_icon_key_spec & _).
  destruct (reachable_screen_inv s' (step_cbs_reachable _ _ _ _ Hr He))
    as (_ & (k' & Hk')%is_icon_key_spec & _).
  eexists. unfold abs_of. rewrite <- Hk, <- Hk', !icon_of_key_icon_key. split; [reflexivity|].
  rewrite Hh. destruct e as [v|u|u|c|c| |]; cbn [is_alert_click design_action_of design_step fresh_toggle] in *;
    [|assert (k' = k) as -> by (apply icon_key_inj; congruence)..].
  - rewrite <- Hsel, <- Hk', icon_of_key_icon_key.
    apply step_cbs_inv in He as (w & s0 & _ & D & _).
    by apply dispatch_radio in D as (_ & _ & _ & _ & _ & [[-> _] | ->]).
  - apply step_cbs_toggle_alert in He as (_ & -> & _). by rewrite fresh_toggle_new_value.
  - apply step_cbs_toggle_paper in He as (_ & -> & _). by rewrite fresh_toggle_new_value.
  - rewrite (step_cbs_alert_control _ _ _ _ He) in He. by apply step_cbs_click_alert in He as (-> & _).
  - destruct (step_cbs_paper_control _ _ _ _ He) as [-> | ->];
      by apply step_cbs_click_paper in He as (-> & _).
  - by apply step_cbs_exit in He as (-> & _); [|left].
  - by apply step_cbs_exit in He as (-> & _); [|right].
Qed.

(** ** Commuting events *)

Lemma step_cbs_radio_eq s w v :
  App s = Some w ->
  step_cbs s (ClickRadio v) =
    match radio_buttons_click radio_p s.(s_radio) v with
    | Some (g, cbs) => Some (commit (with_radio g s) cbs, cbs)
    | None => None
    end.
Proof. intros Hw. unfold step_cbs. rewrite Hw. simpl. by destruct (radio_buttons_click _ _ _) as [[g cbs]|]. Qed.

Lemma step_cbs_paper_toggle_eq s w u :
  App s = Some w ->
  step_cbs s (ClickPaperToggle u) =
    if decide (u ∈ Toggle.values) then
      Some (commit s (toggle_click (paper_toggle_p s.(s_hooks)) u),
            toggle_click (paper_toggle_p s.(s_hooks)) u)
    else None.
Proof. intros Hw. unfold step_cbs. rewrite Hw. simpl. by case_decide. Qed.

Lemma commit_s_radio s cbs : (commit s cbs).(s_radio) = s.(s_radio).
Proof. reflexivity. Qed.

(** Committing a radio selection and a Paper toggle in either order gives
    the same screen, when an open Paper's popper has entered. *)
Lemma commit_radio_paper_comm s g cr x :
  (s.(s_hooks).(open) = true -> s.(s_paper).(pp_exited) = false) ->
  (cr = [] \/ exists v, cr = [HandleChange v]) ->
  commit (with_radio g (commit s [OnPaperToggle x])) cr =
  commit (commit (with_radio g s) cr) [OnPaperToggle x].
Proof.
  destruct s as [[o oa si] r pa [ex]]. unfold commit, with_radio, run_cbs.
  cbn -[is_open_value]. intros Hinv [-> | [v ->]]; cbn -[is_open_value];
    destruct (is_open_value x), o, ex; try reflexivity; by discriminate Hinv.
Qed.

(** C30: Selecting an icon and clicking the Paper's toggle commute: on
    a reachable screen, when the radio click and then the toggle click are
    enabled, the toggle click and then the radio click are enabled too,
    invoke the same callbacks and end in the same screen. *)
Theorem radio_paper_toggle_commute s v u s1 s2 cr ct :
  reachable s ->
  step_cbs s (ClickRadio v) = Some (s1, cr) -> step_cbs s1 (ClickPaperToggle u) = Some (s2, ct) ->
  exists s1', step_cbs s (ClickPaperToggle u) = Some (s1', ct) /\
    step_cbs s1' (ClickRadio v) = Some (s2, cr).
Proof.
  intros Hr H1 H2. pose proof (reachable_screen_inv s Hr) as (_ & _ & _ & Hinv).
  pose proof (step_cbs_reachable _ _ _ _ Hr H1) as Hr1.
  destruct (App_Some s (reachable_screen_inv s Hr)) as [w Hw].
  destruct (App_Some s1 (reachable_screen_inv s1 Hr1)) as [w1 Hw1].
  assert (Hcr : cr = [] \/ exists v', cr = [HandleChange v']).
  { destruct (step_cbs_inv _ _ _ _ H1) as (w' & s0 & _ & D & _).
    apply dispatch_radio in D as (_ & _ & _ & _ & _ & [[-> _] | ->]); eauto. }
  rewrite (step_cbs_radio_eq s w v Hw) in H1.
  destruct (radio_buttons_click radio_p s.(s_radio) v) as [[g cr0]|] eqn:Er; [|done].
  injection H1 as <- <-.
  rewrite (step_cbs_paper_toggle_eq _ w1 u Hw1) in H2. case_decide as Hu; [|done].
  injection H2 as <- <-.
  assert (Ht : paper_toggle_p (run_cbs cr0 s.(s_hooks)) = paper_toggle_p s.(s_hooks))
    by (destruct Hcr as [-> | [v' ->]]; reflexivity).
  rewrite Ht, (step_cbs_paper_toggle_eq s w u Hw), decide_True by done.
  eexists. split; [reflexivity|].
  assert (Hr' : reachable (commit s (toggle_click (paper_toggle_p s.(s_hooks)) u))).
  { eapply (step_cbs_reachable s (ClickPaperToggle u) _ _ Hr).
    by rewrite (step_cbs_paper_toggle_eq s w u Hw), decide_True by done. }
  destruct (App_Some _ (reachable_screen_inv _ Hr')) as [w' Hw'].
  rewrite (step_cbs_radio_eq _ w' v Hw'), commit_s_radio, Er.
  rewrite (toggle_click_cbs _ OnPaperToggle) by reflexivity.
  by rewrite commit_radio_paper_comm.
Qed.

Lemma step_cbs_alert_toggle_eq s w u :
  App s = Some w ->
  step_cbs s (ClickAlertToggle u) =
    if decide (u ∈ Toggle.values) then
      Some (commit s (toggle_click (alert_toggle_p s.(s_hooks)) u),
            toggle_click (alert_toggle_p s.(s_hooks)) u)
    else None.
Proof. intros Hw. unfold step_cbs. rewrite Hw. simpl. by case_decide. Qed.

(** A popper synced to an intermediate flag and then to the final one is
    the popper synced to the final one, when the intermediate flag is the
    original or the final one and an open popper has entered. *)
Lemma popper_sync_inter b o oa p :
  (oa = true -> p.(pp_exited) = false) -> o = oa \/ o = b ->
  popper_sync b (popper_sync o p) = popper_sync b p.
Proof.
  destruct p as [ex]. intros Hinv [-> | ->]; destruct b; try reflexivity.
  destruct oa; [|reflexivity]. simpl in *. by rewrite Hinv.
Qed.

(** Two commits are one commit of the callbacks in sequence, when each
    flag's intermediate value is its first or its last one. *)
Lemma commit_commit s c1 c2 :
  (s.(s_hooks).(openAlert) = true -> s.(s_alert).(pp_exited) = false) ->
  (s.(s_hooks).(open) = true -> s.(s_paper).(pp_exited) = false) ->
  ((run_cbs c1 s.(s_hooks)).(openAlert) = s.(s_hooks).(openAlert) \/
   (run_cbs c1 s.(s_hooks)).(openAlert) = (run_cbs (c1 ++ c2) s.(s_hooks)).(openAlert)) ->
  ((run_cbs c1 s.(s_hooks)).(open) = s.(s_hooks).(open) \/
   (run_cbs c1 s.(s_hooks)).(open) = (run_cbs (c1 ++ c2) s.(s_hooks)).(open)) ->
  commit (commit s c1) c2 = commit s (c1 ++ c2).
Proof.
  intros Ha Hp Hma Hmp. unfold commit at 1 2 3. cbn [s_hooks s_radio s_alert s_paper].
  rewrite run_cbs_app in *. f_equal; by eapply popper_sync_inter.
Qed.

(** C31: The two widgets' toggles are independent: on a reachable screen,
    a click on the Alert's toggle followed by a click on the Paper's can be
    swapped; the swapped order is enabled, invokes the same callbacks and
    ends in the same screen. *)
Theorem toggles_commute s u1 u2 s1 s2 c1 c2 :
  reachable s ->
  step_cbs s (ClickAlertToggle u1) = Some (s1, c1) ->
  step_cbs s1 (ClickPaperToggle u2) = Some (s2, c2) ->
  exists s1', step_cbs s (ClickPaperToggle u2) = Some (s1', c2) /\
    step_cbs s1' (ClickAlertToggle u1) = Some (s2, c1).
Proof.
  intros Hr (Hu1 & -> & ->)%step_cbs_toggle_alert
    (Hu2 & -> & ->)%step_cbs_toggle_paper.
  pose proof (reachable_screen_inv s Hr) as (_ & _ & Ha & Hp).
  destruct (App_Some s (reachable_screen_inv s Hr)) as [w Hw].
  change (open (s_hooks (commit s [OnAlertToggle ?x]))) with (open (s_hooks s)).
  rewrite (step_cbs_paper_toggle_eq s w u2 Hw), decide_True by done.
  rewrite (toggle_click_cbs _ OnPaperToggle) by reflexivity.
  eexists. split; [reflexivity|].
  assert (Hr' : reachable (commit s [OnPaperToggle (toggle_new_value
                  (tp_defaultValue (paper_toggle_p (s_hooks s))) u2)])).
  { eapply (step_cbs_reachable s (ClickPaperToggle u2) _ _ Hr).
    rewrite (step_cbs_paper_toggle_eq s w u2 Hw), decide_True by done.
    by rewrite (toggle_click_cbs _ OnPaperToggle). }
  destruct (App_Some _ (reachable_screen_inv _ Hr')) as [w' Hw'].
  rewrite (step_cbs_alert_toggle_eq _ w' u1 Hw'), decide_True by done.
  rewrite (toggle_click_cbs _ OnAlertToggle) by reflexivity.
  rewrite !commit_commit by first [done | by left | by right]. reflexivity.
Qed.

End Lemmas.

(** ** Witnesses, with MUI's toggle group and palette *)

Lemma alert_flag_only_by_toggle_witness :
  exists s' tr,
    run_events demo_error_open [ClickAlert AlertCloseButton; ClickRadio "done"] = Some (s', tr) /\
    Forall (fun e => is_alert_toggle e = false) [ClickAlert AlertCloseButton; ClickRadio "done"] /\
    s'.(s_hooks).(openAlert) = true.
Proof.
  assert (Hall : Forall (fun e => is_alert_toggle e = false)
                   [ClickAlert AlertCloseButton; ClickRadio "done"]) by repeat constructor.
  eexists _, _. split; [reflexivity|]. split; [exact Hall|].
  eapply (alert_flag_only_by_toggle demo_error_open [ClickAlert AlertCloseButton; ClickRadio "done"]);
    [reflexivity | exact Hall].
Defined.

Lemma run_selectedIcon_witness :
  exists s' tr,
    run_events screen_init [ClickRadio "error"; ClickAlertToggle "Open"; ClickRadio "done";
                            ClickPaperToggle "Open"] = Some (s', tr) /\
    s'.(s_hooks).(selectedIcon) = "done".
Proof.
  eexists _, _. split; [reflexivity|].
  eapply (run_selectedIcon screen_init [ClickRadio "error"; ClickAlertToggle "Open"; ClickRadio "done";
                                       ClickPaperToggle "Open"]);
    [apply rtc_refl | reflexivity].
Defined.

Lemma close_controls_enabled_iff_witness :
  reachable demo_paper_exiting /\ is_Some (step_cbs demo_paper_exiting (ClickPaper CloseIconButton)).
Proof.
  split; [apply demo_paper_exiting_reachable|].
  apply (close_controls_enabled_iff demo_paper_exiting demo_paper_exiting_reachable). reflexivity.
Defined.

Lemma screen_refines_design_witness :
  exists s' a, step demo_error_open (ClickAlert AlertCloseButton) = Some s' /\
    abs_of demo_error_open = Some a /\ abs_of s' = Some (design_step a DismissPaper).
Proof.
  eexists. assert (He : step demo_error_open (ClickAlert AlertCloseButton) = Some _) by reflexivity.
  destruct (proj2 screen_refines_design demo_error_open _ _ demo_error_open_reachable He eq_refl)
    as (a & Ha & Ha'). exists a. auto.
Defined.

Lemma radio_paper_toggle_commute_witness :
  exists s1 s2 cr ct s1',
    step_cbs screen_init (ClickRadio "error") = Some (s1, cr) /\
    step_cbs s1 (ClickPaperToggle "Open") = Some (s2, ct) /\
    step_cbs screen_init (ClickPaperToggle "Open") = Some (s1', ct) /\
    step_cbs s1' (ClickRadio "error") = Some (s2, cr).
Proof.
  assert (H1 : step_cbs screen_init (ClickRadio "error") = Some (_, _)) by reflexivity.
  assert (H2 : step_cbs (commit (with_radio {| rg_value := Some "error" |} screen_init)
                           [HandleChange "error"]) (ClickPaperToggle "Open") = Some (_, _))
    by reflexivity.
  destruct (radio_paper_toggle_commute _ _ _ _ _ _ _ (rtc_refl _ _) H1 H2) as (s1' & H3 & H4).
  eexists _, _, _, _, s1'. split; [exact H1|]. split; [exact H2|]. split; [exact H3 | exact H4].
Defined.

Lemma toggles_commute_witness :
  exists s1 s2 c1 c2 s1',
    step_cbs demo_error_open (ClickAlertToggle "Close") = Some (s1, c1) /\
    step_cbs s1 (ClickPaperToggle "Open") = Some (s2, c2) /\
    step_cbs demo_error_open (ClickPaperToggle "Open") = Some (s1', c2) /\
    step_cbs s1' (ClickAlertToggle "Close") = Some (s2, c1).
Proof.
  assert (H1 : step_cbs demo_error_open (ClickAlertToggle "Close") = Some (_, _)) by reflexivity.
  assert (H2 : step_cbs (commit demo_error_open [OnAlertToggle (Some "Close")])
                 (ClickPaperToggle "Open") = Some (_, _)) by reflexivity.
  destruct (toggles_commute _ _ _ _ _ _ _ demo_error_open_reachable H1 H2)
    as (s1' & H3 & H4).
  eexists _, _, _, _, s1'. split; [exact H1|]. split; [exact H2|]. split; [exact H3 | exact H4].
Defined.

End Trace.
